(** * Document question answering: chunking, retrieval and orchestration

    A shallow embedding of the Python services of the repository

    - [HealthLink/app/services/pdf_processor.py]  (module [PDFProcessor]),
    - [HealthLink/app/services/embeddings.py]     (module [HealthLink]),
    - [app/services/embeddings.py]                (module [App]),
    - [app/services/qa_service.py]                (module [QA]),
    - [app/models/schemas.py], [HealthLink/app/core/config.py],
    - [app/core/auth.py]                          (module [Auth]),
    - the validator of [app/models/schemas.py]    (module [Schemas]),
    - [download_pdf] of the PDF processor         (module [Transport]),

    followed by the properties of the design document that they decide, and
    by further properties of the code.

    Conventions.  A Python [int] is a [Z]; a length is a [nat]; a [str] is a
    [string] whose characters are the code points below 256, with Python's
    [str] methods restricted to that range; a [float] is a binary64
    [PrimFloat.float]; [Optional[T]] is [option T].  A function that can raise
    returns a [result]; a function that talks to a remote service threads the
    state of the outside world. *)

From Stdlib Require Import ZArith Lia Ascii PrimFloat.
From stdpp Require Import base tactics list strings gmap sorting pretty.

(** ** Python built-ins used by the services *)

Module Py.

(** [str.isspace] of one character: TAB..CR, FS..US, SPACE, NEL, NBSP. *)
Definition isspace (a : ascii) : bool :=
  let n := N_of_ascii a in
  ((9 <=? n) && (n <=? 13) || (28 <=? n) && (n <=? 32)
   || (n =? 133) || (n =? 160))%N.

(** [str.lower] of one character: A..Z and the upper-case letters of the
    Latin-1 block (all of 192..222 but the multiplication sign 215). *)
Definition lower_char (a : ascii) : ascii :=
  let n := N_of_ascii a in
  if ((65 <=? n) && (n <=? 90)
      || (192 <=? n) && (n <=? 222) && negb (n =? 215))%N
  then ascii_of_N (n + 32) else a.

Fixpoint lower (s : string) : string :=
  match s with
  | EmptyString => EmptyString
  | String a s' => String (lower_char a) (lower s')
  end.

(** [s.split()]: the maximal runs of non-space characters, in order.
    [cur] holds the current run, reversed. *)
Fixpoint split_go (cur : string) (s : string) : list string :=
  match s with
  | EmptyString =>
      match cur with EmptyString => [] | _ => [String.rev cur] end
  | String a s' =>
      if isspace a then
        match cur with
        | EmptyString => split_go EmptyString s'
        | _ => String.rev cur :: split_go EmptyString s'
        end
      else split_go (String a cur) s'
  end.

Definition split (s : string) : list string := split_go EmptyString s.

(** [sep.join(l)] *)
Fixpoint join (sep : string) (l : list string) : string :=
  match l with
  | [] => EmptyString
  | x :: l' =>
      match l' with
      | [] => x
      | _ => x +:+ sep +:+ join sep l'
      end
  end.

Fixpoint lstrip (s : string) : string :=
  match s with
  | EmptyString => EmptyString
  | String a s' => if isspace a then lstrip s' else s
  end.

Definition rstrip (s : string) : string :=
  String.rev (lstrip (String.rev s)).

(** [s.strip()] *)
Definition strip (s : string) : string := rstrip (lstrip s).

(** [s.replace(old, new)] for one-character [old] and [new]. *)
Fixpoint replace_char (old new : ascii) (s : string) : string :=
  match s with
  | EmptyString => EmptyString
  | String a s' =>
      String (if Ascii.eqb a old then new else a) (replace_char old new s')
  end.

(** [s.startswith(p)] *)
Definition startswith (s p : string) : bool := String.prefix p s.

(** [s[n:]] for [n >= 0] *)
Fixpoint str_from (n : nat) (s : string) : string :=
  match n, s with
  | O, _ => s
  | S n', String _ s' => str_from n' s'
  | S _, EmptyString => EmptyString
  end.

(** Truth value of an [Optional[str]], of an [Optional[List]] and of an
    [Optional[int]]. *)
Definition truthy_str (s : option string) : bool :=
  match s with Some (String _ _) => true | _ => false end.

Definition truthy_list {A} (l : option (list A)) : bool :=
  match l with Some (_ :: _) => true | _ => false end.

Definition truthy_int (n : option Z) : bool :=
  match n with Some n => negb (n =? 0)%Z | None => false end.

(** A slice bound brought into [0 .. len] as Python does: a negative bound
    counts from the end. *)
Definition clamp (len i : Z) : Z :=
  if (i <? 0)%Z then Z.max 0 (len + i) else Z.min len i.

(** [l[lo:hi]] *)
Definition slice {A} (l : list A) (lo hi : Z) : list A :=
  let len := Z.of_nat (length l) in
  let lo' := clamp len lo in
  let hi' := clamp len hi in
  take (Z.to_nat (hi' - lo')) (drop (Z.to_nat lo') l).

(** [l[:hi]] *)
Definition slice_to {A} (l : list A) (hi : Z) : list A := slice l 0 hi.

(** [range(start, stop, step)] as the list of its elements; a zero step
    raises [ValueError].  The number of elements is CPython's
    [len(range)]. *)
Definition range (start stop step : Z) : option (list Z) :=
  if (step =? 0)%Z then None
  else
    let n := if (0 <? step)%Z then ((stop - start + step - 1) / step)%Z
             else ((start - stop - step - 1) / (- step))%Z in
    Some (map (λ j : nat, (start + Z.of_nat j * step)%Z)
              (seq 0 (Z.to_nat n))).

(** [l.sort(key=key, reverse=True)]: the sort is stable, elements with
    equal keys keep their order.  The only comparison it makes is [<] on
    keys.  Modelled by a stable insertion sort: an element goes before the
    first element to its right whose key is not greater. *)
Section sort.
Context {A K : Type} (ltb : K → K → bool) (key : A → K).

Fixpoint insert_desc (x : A) (l : list A) : list A :=
  match l with
  | [] => [x]
  | y :: l' =>
      if ltb (key x) (key y) then y :: insert_desc x l' else x :: l
  end.

Definition sort_desc (l : list A) : list A := foldr insert_desc [] l.
End sort.

End Py.

(** ** Exceptions *)

(** The outcome of a call that can raise: the value returned, or the message
    of the exception ([ValueError] throughout the services). *)
Inductive result (A : Type) : Type :=
| Ok (a : A)
| Raise (msg : string).
Arguments Ok {A} a.
Arguments Raise {A} msg.

Global Instance result_ret : MRet result := @Ok.

Global Instance result_bind : MBind result := λ A B k r,
  match r with
  | Ok a => k a
  | Raise msg => Raise msg
  end.

(** [except Exception as e: raise ValueError(f"{prefix}{str(e)}")] *)
Definition reraise {A} (prefix : string) (r : result A) : result A :=
  match r with
  | Ok a => Ok a
  | Raise msg => Raise (prefix +:+ msg)
  end.

(** A [for] loop whose body can raise. *)
Fixpoint for_each {A S} (body : S → A → result S) (l : list A) (s : S)
  : result S :=
  match l with
  | [] => Ok s
  | x :: l' => s' ← body s x ; for_each body l' s'
  end.

(** ** app/models/schemas.py *)

Record DocumentChunk : Type := {
  content : string;
  chunk_id : Z;
  page_number : option Z;
  embedding : option (list float)
}.

Record QARequest : Type := {
  documents : string;
  questions : list string
}.

Record QAResponse : Type := { answers : list string }.

(** ** HealthLink/app/core/config.py *)

Record Settings : Type := {
  CHUNK_SIZE : Z;
  CHUNK_OVERLAP : Z;
  TOP_K_CHUNKS : Z
}.

Definition settings : Settings :=
  {| CHUNK_SIZE := 400; CHUNK_OVERLAP := 50; TOP_K_CHUNKS := 5 |}.

(** ** The outside world *)

(** The remote collaborators: the HTTP transport, the PDF parser, the
    embedding model and the generative model.  [W] is the state of the
    world; a call can fail ([Raise], or [None] for the two model calls whose
    callers catch every exception) and changes the world.

    - [download_pdf url] stands for [PDFProcessor.download_pdf] as a whole,
      the transport with its size guards: the bytes of the document, or the
      [ValueError] it raises (no property below depends on how);
    - [page_texts pdf] is [page.get_text()] of every page of
      [fitz.open], in page order;
    - [embed_content text task_type] is
      [client.models.embed_content(...).embedding];
    - [generate_content prompt] is
      [client.models.generate_content(...).text]. *)
Class World : Type := {
  W : Type;
  pdf_bytes : Type;
  download_pdf : string → W → result pdf_bytes * W;
  page_texts : pdf_bytes → result (list string);
  embed_content : string → string → W → option (list float) * W;
  generate_content : string → W → option (option string) * W
}.

(** The two numpy kernels of the semantic index.  [np_normalize v] is
    [(np.array(v) / np.linalg.norm(np.array(v))).tolist()], [np_dot a b] is
    [np.dot(a, b)] on two vectors of one length.  numpy does not fix the
    order of its summations, so they are parameters. *)
Class Numpy : Type := {
  np_normalize : list float → list float;
  np_dot : list float → list float → float
}.

(** ** HealthLink/app/services/pdf_processor.py *)

Module PDFProcessor.
Section PDFProcessor.
Context {world : World}.

(** The processor object: [self.chunk_size] and [self.chunk_overlap], read
    from the settings by [__init__]. *)
Record t : Type := { chunk_size : Z; chunk_overlap : Z }.

Definition new (cfg : Settings) : t :=
  {| chunk_size := CHUNK_SIZE cfg; chunk_overlap := CHUNK_OVERLAP cfg |}.

(** [_clean_text].  The replacement character U+FFFD is no character of
    the strings modelled here, so its [replace] changes nothing. *)
Definition _clean_text (text : string) : string :=
  let text := Py.join " " (Py.split text) in
  let text := Py.replace_char "000"%char " "%char text in
  Py.strip text.

(** The page loop of [extract_text_from_pdf]: [page_num] counts from 0,
    a page whose cleaned text is blank is dropped, the others are tagged
    with [page_num + 1]. *)
Definition extract_page (text_pages : list (string * Z))
    (page : Z * string) : list (string * Z) :=
  let text := _clean_text page.2 in
  match Py.strip text with
  | EmptyString => text_pages
  | _ => text_pages ++ [(text, (page.1 + 1)%Z)]
  end.

Definition enumerate {A} (l : list A) : list (Z * A) :=
  zip (map Z.of_nat (seq 0 (length l))) l.

Definition extract_text_from_pdf (pdf_content : pdf_bytes)
  : result (list (string * Z)) :=
  reraise "Failed to extract text from PDF: "
    (doc ← page_texts pdf_content;
     Ok (fold_left extract_page (enumerate doc) [])).

(** The body of the window loop of [chunk_text]; the state is the list
    [chunks] and the counter [chunk_id]. *)
Definition chunk_window (self : t) (words : list string)
    (page_num : Z) (st : list DocumentChunk * Z) (i : Z)
  : list DocumentChunk * Z :=
  let chunk_words := Py.slice words i (i + chunk_size self) in
  if (length chunk_words <? 10)%nat then st
  else
    let chunk_text := Py.join " " chunk_words in
    let chunk := {| content := chunk_text;
                    chunk_id := st.2;
                    page_number := Some page_num;
                    embedding := None |} in
    (st.1 ++ [chunk], (st.2 + 1)%Z).

(** The body of the page loop of [chunk_text]. *)
Definition chunk_page (self : t) (st : list DocumentChunk * Z)
    (page : string * Z) : result (list DocumentChunk * Z) :=
  let words := Py.split page.1 in
  match Py.range 0 (Z.of_nat (length words))
                 (chunk_size self - chunk_overlap self) with
  | None => Raise "range() arg 3 must not be zero"
  | Some windows =>
      Ok (fold_left (chunk_window self words page.2) windows st)
  end.

Definition chunk_text (self : t) (text_pages : list (string * Z))
  : result (list DocumentChunk) :=
  reraise "Failed to chunk text: "
    (st ← for_each (chunk_page self) text_pages ([], 0%Z);
     Ok st.1).

(** [process_pdf]: download, extract, chunk, with the two emptiness
    guards. *)
Definition process_pdf (self : t) (url : string) (w : W)
  : result (list DocumentChunk) * W :=
  let '(pdf, w1) := download_pdf url w in
  (pdf_content ← pdf;
   text_pages ← extract_text_from_pdf pdf_content;
   match text_pages with
   | [] => Raise "No text could be extracted from the PDF"
   | _ =>
       chunks ← chunk_text self text_pages;
       match chunks with
       | [] => Raise "No valid chunks could be created from the PDF"
       | _ => Ok chunks
       end
   end,
   w1).

End PDFProcessor.
End PDFProcessor.

(** ** HealthLink/app/services/embeddings.py: keyword search only *)

Module HealthLink.

(** The service object: [self.chunks]. *)
Record EmbeddingService : Type := { chunks : list DocumentChunk }.

(** [create_vector_index] stores the chunks.  Nothing in its [try] block
    raises on a list, so the [except] branch is never taken. *)
Definition create_vector_index (self : EmbeddingService)
    (new_chunks : list DocumentChunk) : result unit * EmbeddingService :=
  (Ok (), {| chunks := new_chunks |}).

(** [set(s.lower().split())] *)
Definition word_set (s : string) : gset string :=
  list_to_set (Py.split (Py.lower s)).

(** The body of the scoring loop. *)
Definition score_chunk (query_words : gset string)
    (scored_chunks : list (DocumentChunk * nat)) (chunk : DocumentChunk)
  : list (DocumentChunk * nat) :=
  let chunk_words := word_set (content chunk) in
  let overlap := size (query_words ∩ chunk_words) in
  if (0 <? overlap)%nat then scored_chunks ++ [(chunk, overlap)]
  else scored_chunks.

(** The body of the padding loop; [used_chunk_ids] is computed once,
    before the loop. *)
Definition fill_slot (used_chunk_ids : gset Z) (top_k : Z)
    (similar_chunks : list DocumentChunk) (chunk : DocumentChunk)
  : list DocumentChunk :=
  if bool_decide (chunk_id chunk ∉ used_chunk_ids)
     && (Z.of_nat (length similar_chunks) <? top_k)%Z
  then similar_chunks ++ [chunk]
  else similar_chunks.

Definition search_similar_chunks (self : EmbeddingService)
    (query : string) (top_k : Z) : result (list DocumentChunk) :=
  reraise "Failed to search similar chunks: "
    match chunks self with
    | [] => Raise "Text index not initialized. Create index first."
    | _ =>
        let query_words := word_set query in
        let scored_chunks :=
          fold_left (score_chunk query_words) (chunks self) [] in
        let scored_chunks := Py.sort_desc Nat.ltb snd scored_chunks in
        let similar_chunks := map fst (Py.slice_to scored_chunks top_k) in
        let similar_chunks :=
          if (Z.of_nat (length similar_chunks) <? top_k)%Z then
            let used_chunk_ids : gset Z :=
              list_to_set (map chunk_id similar_chunks) in
            fold_left (fill_slot used_chunk_ids top_k) (chunks self)
                      similar_chunks
          else similar_chunks in
        Ok (Py.slice_to similar_chunks top_k)
    end.

(** [f"{chunk.page_number}"] *)
Definition str_optional_int (n : option Z) : string :=
  match n with
  | Some n => pretty n
  | None => "None"
  end.

Definition page_info (chunk : DocumentChunk) : string :=
  if Py.truthy_int (page_number chunk)
  then "[Page " +:+ str_optional_int (page_number chunk) +:+ "]"
  else "[Unknown Page]".

Definition newline : string := String "010"%char EmptyString.

(** [get_context_for_question] from the retrieved chunks on: the sentinel
    for no chunk, else the tagged chunks joined by a blank line. *)
Definition assemble_context (similar_chunks : list DocumentChunk)
  : string :=
  match similar_chunks with
  | [] => "No relevant context found in the document."
  | _ =>
      let context_parts :=
        fold_left (λ parts chunk,
                     parts ++ [page_info chunk +:+ " " +:+ content chunk])
                  similar_chunks [] in
      Py.join (newline +:+ newline) context_parts
  end.

Definition get_context_for_question (self : EmbeddingService)
    (question : string) (top_k : Z) : result string :=
  reraise "Failed to get context for question: "
    (similar_chunks ← search_similar_chunks self question top_k;
     Ok (assemble_context similar_chunks)).

Definition clear_index (self : EmbeddingService) : EmbeddingService :=
  {| chunks := [] |}.

End HealthLink.

(** ** app/services/embeddings.py: semantic search with keyword fallback *)

Module App.
Section App.
Context {world : World} {numpy : Numpy}.

(** The service object: [self.chunks], [self.embeddings], and whether
    [self.client] is set ([_initialize_gemini] leaves it [None] when the
    key is missing or the client cannot be built). *)
Record EmbeddingService : Type := {
  chunks : list DocumentChunk;
  embeddings : list (list float);
  client : bool
}.

(** [_get_embedding]: the provider's vector, [None] on any exception. *)
Definition _get_embedding (self : EmbeddingService) (text : string)
    (task_type : string) (w : W) : option (list float) * W :=
  if client self then embed_content text task_type w else (None, w).

(** [[0.0] * 768] *)
Definition zero_vector : list float := replicate 768 0%float.

(** The body of the embedding loop of [create_vector_index].  Its inner
    [except] guards the numpy calls, which do not raise on a list of
    floats. *)
Definition embed_chunk (self : EmbeddingService)
    (st : list (list float) * W) (chunk : DocumentChunk)
  : list (list float) * W :=
  let '(embedding, w1) :=
    _get_embedding self (content chunk) "retrieval_document" st.2 in
  if Py.truthy_list embedding
  then (st.1 ++ [np_normalize (default [] embedding)], w1)
  else (st.1 ++ [zero_vector], w1).

(** [create_vector_index].  The outer [except], which would store the
    chunks with no embeddings, guards a loop that does not raise. *)
Definition create_vector_index (self : EmbeddingService)
    (new_chunks : list DocumentChunk) (w : W)
  : result unit * EmbeddingService * W :=
  let '(new_embeddings, w1) :=
    fold_left (embed_chunk self) new_chunks ([], w) in
  (Ok (),
   {| chunks := new_chunks; embeddings := new_embeddings;
      client := client self |},
   w1).

(** One step of the similarity loop: [np.dot] raises on vectors of
    different lengths, [self.chunks[i]] on an index out of range
    ([None] for both: the caller catches every exception). *)
Definition similarity_step (self : EmbeddingService)
    (query_normalized : list float)
    (similarities : list (DocumentChunk * float))
    (entry : nat * list float) : option (list (DocumentChunk * float)) :=
  if (length query_normalized =? length entry.2)%nat then
    chunk ← chunks self !! entry.1;
    Some (similarities ++ [(chunk, np_dot query_normalized entry.2)])
  else None.

Fixpoint for_each_opt {A S} (body : S → A → option S) (l : list A) (s : S)
  : option S :=
  match l with
  | [] => Some s
  | x :: l' => s' ← body s x; for_each_opt body l' s'
  end.

(** The semantic branch of [search_similar_chunks]: [Some] is its
    [return], [None] is falling through to the keyword search (no query
    embedding, or an exception caught by the inner [except]).  The order
    of the result is that of [Py.sort_desc], which is CPython's when no
    similarity is a NaN; with a NaN among them [<] is no order and
    CPython's sort may leave the chunks in another order. *)
Definition semantic_search (self : EmbeddingService) (query : string)
    (top_k : Z) (w : W) : option (list DocumentChunk) * W :=
  let '(query_embedding, w1) :=
    _get_embedding self query "retrieval_query" w in
  if Py.truthy_list query_embedding then
    let query_normalized := np_normalize (default [] query_embedding) in
    (similarities ←
       for_each_opt (similarity_step self query_normalized)
                    (zip (seq 0 (length (embeddings self)))
                         (embeddings self)) [];
     let similarities := Py.sort_desc PrimFloat.ltb snd similarities in
     Some (map fst (Py.slice_to similarities top_k)),
     w1)
  else (None, w1).

Definition word_set (s : string) : gset string :=
  list_to_set (Py.split (Py.lower s)).

Definition score_chunk (query_words : gset string)
    (scored_chunks : list (DocumentChunk * nat)) (chunk : DocumentChunk)
  : list (DocumentChunk * nat) :=
  let chunk_words := word_set (content chunk) in
  let overlap := size (query_words ∩ chunk_words) in
  if (0 <? overlap)%nat then scored_chunks ++ [(chunk, overlap)]
  else scored_chunks.

Definition fill_slot (used_chunk_ids : gset Z) (top_k : Z)
    (similar_chunks : list DocumentChunk) (chunk : DocumentChunk)
  : list DocumentChunk :=
  if bool_decide (chunk_id chunk ∉ used_chunk_ids)
     && (Z.of_nat (length similar_chunks) <? top_k)%Z
  then similar_chunks ++ [chunk]
  else similar_chunks.

(** The keyword fallback of [search_similar_chunks]. *)
Definition keyword_search (self : EmbeddingService) (query : string)
    (top_k : Z) : list DocumentChunk :=
  let query_words := word_set query in
  let scored_chunks :=
    fold_left (score_chunk query_words) (chunks self) [] in
  let scored_chunks := Py.sort_desc Nat.ltb snd scored_chunks in
  let similar_chunks := map fst (Py.slice_to scored_chunks top_k) in
  let similar_chunks :=
    if (Z.of_nat (length similar_chunks) <? top_k)%Z then
      let used_chunk_ids : gset Z :=
        list_to_set (map chunk_id similar_chunks) in
      fold_left (fill_slot used_chunk_ids top_k) (chunks self)
                similar_chunks
    else similar_chunks in
  Py.slice_to similar_chunks top_k.

Definition search_similar_chunks (self : EmbeddingService)
    (query : string) (top_k : Z) (w : W)
  : result (list DocumentChunk) * W :=
  match chunks self with
  | [] =>
      (reraise "Failed to search similar chunks: "
         (Raise "Index not initialized. Create index first."), w)
  | _ =>
      let '(semantic, w1) :=
        match embeddings self with
        | [] => (None, w)
        | _ =>
            if (length (embeddings self) =? length (chunks self))%nat
            then semantic_search self query top_k w
            else (None, w)
        end in
      match semantic with
      | Some similar_chunks => (Ok similar_chunks, w1)
      | None => (Ok (keyword_search self query top_k), w1)
      end
  end.

Definition str_optional_int (n : option Z) : string :=
  match n with
  | Some n => pretty n
  | None => "None"
  end.

Definition page_info (chunk : DocumentChunk) : string :=
  if Py.truthy_int (page_number chunk)
  then "[Page " +:+ str_optional_int (page_number chunk) +:+ "]"
  else "[Unknown Page]".

Definition newline : string := String "010"%char EmptyString.

Definition assemble_context (similar_chunks : list DocumentChunk)
  : string :=
  match similar_chunks with
  | [] => "No relevant context found in the document."
  | _ =>
      let context_parts :=
        fold_left (λ parts chunk,
                     parts ++ [page_info chunk +:+ " " +:+ content chunk])
                  similar_chunks [] in
      Py.join (newline +:+ newline) context_parts
  end.

Definition get_context_for_question (self : EmbeddingService)
    (question : string) (top_k : Z) (w : W) : result string * W :=
  let '(similar_chunks, w1) := search_similar_chunks self question top_k w in
  (reraise "Failed to get context for question: "
     (similar_chunks ← similar_chunks;
      Ok (assemble_context similar_chunks)),
   w1).

Definition clear_index (self : EmbeddingService) : EmbeddingService :=
  {| chunks := []; embeddings := []; client := client self |}.

End App.
End App.

(** ** app/services/qa_service.py *)

Module QA.
Section QA.
Context {world : World} {numpy : Numpy}.

(** The service object. *)
Record QAService : Type := {
  pdf_processor : PDFProcessor.t;
  embedding_service : App.EmbeddingService
}.

Definition not_found : string := "Not found in document".

Definition quote : string := String "034"%char EmptyString.

Definition prompt_of (question context : string) : string :=
  "Answer the question using only the provided context." +:+ App.newline
  +:+ "If the answer is not in the context, reply "
  +:+ quote +:+ not_found +:+ quote +:+ "." +:+ App.newline
  +:+ "Do not add any explanations, citations, or additional information."
  +:+ App.newline
  +:+ "Provide only the direct answer." +:+ App.newline
  +:+ App.newline
  +:+ "Context:" +:+ App.newline
  +:+ context +:+ App.newline
  +:+ App.newline
  +:+ "Question:" +:+ App.newline
  +:+ question +:+ App.newline
  +:+ App.newline
  +:+ "Answer:".

(** [_generate_answer]: every exception of the model call becomes the
    not-found answer, and so does an empty text. *)
Definition _generate_answer (question context : string) (w : W)
  : string * W :=
  let prompt := prompt_of question context in
  let '(response, w1) := generate_content prompt w in
  match response with
  | None => (not_found, w1)
  | Some text =>
      if negb (Py.truthy_str text) then (not_found, w1)
      else
        let answer := Py.strip (default EmptyString text) in
        let answer :=
          if Py.startswith (Py.lower answer) "answer:"
          then Py.strip (Py.str_from 7 answer)
          else answer in
        (answer, w1)
  end.

(** The body of the question loop of [process_qa_request], with its
    [try]/[except]. *)
Definition answer_question (self : QAService) (top_k : Z)
    (st : list string * W) (question : string) : list string * W :=
  let '(context, w1) :=
    App.get_context_for_question (embedding_service self) question
                                 top_k st.2 in
  match context with
  | Ok context =>
      let '(answer, w2) := _generate_answer question context w1 in
      (st.1 ++ [answer], w2)
  | Raise _ => (st.1 ++ [not_found], w1)
  end.

Definition set_index (self : QAService) (index : App.EmbeddingService)
  : QAService :=
  {| pdf_processor := pdf_processor self; embedding_service := index |}.

(** [process_qa_request]; [top_k] is [settings.TOP_K_CHUNKS].  Each
    [Raise] is the [except] branch: clear the index, raise again. *)
Definition process_qa_request (self : QAService) (top_k : Z)
    (request : QARequest) (w : W) : result QAResponse * QAService * W :=
  let '(chunks, w1) :=
    PDFProcessor.process_pdf (pdf_processor self) (documents request) w in
  match chunks with
  | Raise msg =>
      (Raise msg,
       set_index self (App.clear_index (embedding_service self)), w1)
  | Ok chunks =>
      let '(built, index, w2) :=
        App.create_vector_index (embedding_service self) chunks w1 in
      let self := set_index self index in
      match built with
      | Raise msg =>
          (Raise msg,
           set_index self (App.clear_index (embedding_service self)), w2)
      | Ok _ =>
          let '(answers, w3) :=
            fold_left (answer_question self top_k) (questions request)
                      ([], w2) in
          (Ok {| answers := answers |},
           set_index self (App.clear_index (embedding_service self)), w3)
      end
  end.

End QA.
End QA.

(** ** app/core/auth.py *)

Module Auth.

(** [HTTPException(status_code, detail)] *)
Record HTTPException : Type := { status_code : Z; detail : string }.

(** The body of the [try] block of [verify_token]: the token, or the
    [HTTPException] it raises. *)
Definition check_token (secret_api_key token : string)
  : HTTPException + string :=
  match token with
  | EmptyString =>
      inl {| status_code := 401; detail := "Authorization token is required" |}
  | _ =>
      if negb (String.eqb token secret_api_key)
      then inl {| status_code := 401;
                  detail := "Invalid authorization token" |}
      else inr token
  end.

(** [verify_token]; [secret_api_key] is [settings.SECRET_API_KEY].  An
    [HTTPException] is an [Exception]: the ones raised in the [try] block
    are caught by its [except Exception]. *)
Definition verify_token (secret_api_key token : string)
  : HTTPException + string :=
  match check_token secret_api_key token with
  | inr token => inr token
  | inl _ =>
      inl {| status_code := 401;
             detail := "Authorization token verification failed" |}
  end.

End Auth.

(** ** app/models/schemas.py: the validator of the questions *)

Module Schemas.

(** One turn of the loop of [validate_questions] over [enumerate(v)]. *)
Definition check_question (_ : unit) (entry : nat * string) : result unit :=
  let '(i, question) := entry in
  match question, Py.strip question with
  | EmptyString, _ | _, EmptyString =>
      Raise ("Question " +:+ pretty (i + 1)%nat +:+ " cannot be empty")
  | _, _ =>
      if (String.length (Py.strip question) <? 3)%nat
      then Raise ("Question " +:+ pretty (i + 1)%nat
                  +:+ " must be at least 3 characters long")
      else Ok ()
  end.

Definition validate_questions (v : list string) : result (list string) :=
  match v with
  | [] => Raise "At least one question is required"
  | _ =>
      if (10 <? length v)%nat then Raise "Maximum 10 questions allowed"
      else
        _ ← for_each check_question (zip (seq 0 (length v)) v) ();
        Ok (map Py.strip v)
  end.

End Schemas.

(** ** HealthLink/app/services/pdf_processor.py: [download_pdf] *)

Module Transport.

(** What [requests] hands to [download_pdf] for one URL.
    - [status_error]: the message of the [HTTPError] that
      [raise_for_status] raises, if the status is an error;
    - [content_length]: the header, if present;
    - [body]: the byte chunks that [iter_content] yields;
    - [stream_error]: the message of the [RequestException] that
      [iter_content] raises after the last chunk of [body], if the
      connection breaks.
    The content type only decides whether a warning is logged. *)
Record Response : Type := {
  status_error : option string;
  content_length : option string;
  body : list (list Byte.byte);
  stream_error : option string
}.

(** The two kinds of exception that [download_pdf] tells apart. *)
Inductive exn : Type :=
| RequestException (msg : string)
| OtherException (msg : string).

(** [requests.get(url, ...)] in a world of its own, and [int(s)] of a
    header: the integer, or the message of the [ValueError]. *)
Class Http : Type := {
  Net : Type;
  requests_get : string → Net → (string + Response) * Net;
  int_of_str : string → result Z
}.

(** [50 * 1024 * 1024], [settings.MAX_FILE_SIZE] *)
Definition MAX_FILE_SIZE : Z := 50 * 1024 * 1024.

Section Transport.
Context {http : Http}.

(** The size check on the declared length. *)
Definition check_declared (max_file_size : Z) (r : Response) : exn + unit :=
  match content_length r with
  | None | Some EmptyString => inr ()
  | Some declared =>
      match int_of_str declared with
      | Raise msg => inl (OtherException msg)
      | Ok n =>
          if (max_file_size <? n)%Z
          then inl (OtherException
                      ("File too large: " +:+ declared +:+ " bytes"))
          else inr ()
      end
  end.

(** The body of the loop over [iter_content]; the state is [pdf_content]
    and [total_size]. *)
Definition receive (max_file_size : Z) (st : list Byte.byte * Z)
    (chunk : list Byte.byte) : exn + list Byte.byte * Z :=
  match chunk with
  | [] => inr st
  | _ =>
      let total_size := (st.2 + Z.of_nat (length chunk))%Z in
      if (max_file_size <? total_size)%Z
      then inl (OtherException
                  ("File too large: " +:+ pretty total_size +:+ " bytes"))
      else inr (st.1 ++ chunk, total_size)
  end.

Fixpoint receive_all (max_file_size : Z) (chunks : list (list Byte.byte))
    (st : list Byte.byte * Z) : exn + list Byte.byte * Z :=
  match chunks with
  | [] => inr st
  | chunk :: chunks' =>
      match receive max_file_size st chunk with
      | inl e => inl e
      | inr st' => receive_all max_file_size chunks' st'
      end
  end.

(** The [try] block of [download_pdf]. *)
Definition fetch (max_file_size : Z) (url : string) (w : Net)
  : (exn + list Byte.byte) * Net :=
  let '(response, w1) := requests_get url w in
  (match response with
   | inl msg => inl (RequestException msg)
   | inr response =>
       match status_error response with
       | Some msg => inl (RequestException msg)
       | None =>
           match check_declared max_file_size response with
           | inl e => inl e
           | inr _ =>
               match receive_all max_file_size (body response) ([], 0%Z) with
               | inl e => inl e
               | inr st =>
                   match stream_error response with
                   | Some msg => inl (RequestException msg)
                   | None => inr st.1
                   end
               end
           end
       end
   end, w1).

(** [download_pdf]: the two [except] clauses turn every exception into a
    [ValueError]. *)
Definition download_pdf (max_file_size : Z) (url : string) (w : Net)
  : result (list Byte.byte) * Net :=
  let '(outcome, w1) := fetch max_file_size url w in
  (match outcome with
   | inr pdf_content => Ok pdf_content
   | inl (RequestException msg) => Raise ("Failed to download PDF: " +:+ msg)
   | inl (OtherException msg) => Raise ("Error downloading PDF: " +:+ msg)
   end, w1).

End Transport.
End Transport.

(** ** A scripted world and a reference numpy *)

(** A world for running the services on concrete inputs: the documents a URL
    serves (as the texts of their pages), and the outcomes of the calls to
    the embedding model and to the generative model still to come, in call
    order.  A call past the end of its script fails. *)
Module Scripted.

Record world : Type := {
  served : list (string * list string);
  embed_calls : list (option (list float));
  generate_calls : list (option (option string))
}.

Definition fetch (url : string) (w : world)
  : result (list string) * world :=
  match list_find (λ d, d.1 = url) (served w) with
  | Some (_, d) => (Ok d.2, w)
  | None => (Raise "Failed to download PDF: 404", w)
  end.

Definition embed (_ _ : string) (w : world)
  : option (list float) * world :=
  match embed_calls w with
  | [] => (None, w)
  | r :: rest =>
      (r, {| served := served w; embed_calls := rest;
             generate_calls := generate_calls w |})
  end.

Definition generate (_ : string) (w : world)
  : option (option string) * world :=
  match generate_calls w with
  | [] => (None, w)
  | r :: rest =>
      (r, {| served := served w; embed_calls := embed_calls w;
             generate_calls := rest |})
  end.

Definition World_instance : World :=
  {| W := world;
     pdf_bytes := list string;
     download_pdf := fetch;
     page_texts := Ok;
     embed_content := embed;
     generate_content := generate |}.

(** Left-to-right sums in binary64. *)
Definition norm (v : list float) : float :=
  PrimFloat.sqrt (fold_left (λ acc x, acc + x * x)%float v 0%float).

Definition Numpy_instance : Numpy :=
  {| np_normalize v := map (λ x, x / norm v)%float v;
     np_dot a b :=
       fold_left (λ acc xy, acc + xy.1 * xy.2)%float (zip a b) 0%float |}.

End Scripted.

(** ** A scripted network *)

Module Scripted_http.

Definition digit_of (a : ascii) : option Z :=
  let n := N_of_ascii a in
  if ((48 <=? n) && (n <=? 57))%N then Some (Z.of_N n - 48)%Z else None.

(** The digits of a decimal literal; an underscore may stand between two
    digits. *)
Fixpoint digits (s : string) (acc : Z) (after_digit : bool) : option Z :=
  match s with
  | EmptyString => if after_digit then Some acc else None
  | String a s' =>
      match digit_of a with
      | Some d => digits s' (acc * 10 + d)%Z true
      | None =>
          if Ascii.eqb a "_" && after_digit then digits s' acc false
          else None
      end
  end.

(** [int(s)] in base 10: white space around the literal, an optional sign,
    digits with single underscores between them.  The message of the
    [ValueError] quotes [s] as [repr] does when [s] has no quote, no
    backslash and no unprintable character. *)
Definition int_of_digits (s : string) : result Z :=
  let literal := Py.strip s in
  let parsed :=
    match literal with
    | String "-" rest => Z.opp <$> digits rest 0 false
    | String "+" rest => digits rest 0 false
    | _ => digits literal 0 false
    end in
  match parsed with
  | Some n => Ok n
  | None => Raise ("invalid literal for int() with base 10: '" +:+ s +:+ "'")
  end.

(** The network is the list of the responses it serves. *)
Definition get (url : string) (w : list (string * Transport.Response))
  : (string + Transport.Response) * list (string * Transport.Response) :=
  match list_find (λ d, d.1 = url) w with
  | Some (_, d) => (inr d.2, w)
  | None => (inl "connection refused", w)
  end.

Definition Http_instance : Transport.Http :=
  {| Transport.Net := list (string * Transport.Response);
     Transport.requests_get := get;
     Transport.int_of_str := int_of_digits |}.

End Scripted_http.

(** ** Vocabulary of the properties *)

(** A chunk with no embedding, as [chunk_text] builds it. *)
Definition mk_chunk (text : string) (id page : Z) : DocumentChunk :=
  {| content := text; chunk_id := id; page_number := Some page;
     embedding := None |}.

(** [c] is a window of the words of [page], tagged with its page number. *)
Definition window_of (self : PDFProcessor.t) (page : string * Z)
    (c : DocumentChunk) : Prop :=
  page_number c = Some page.2 ∧ embedding c = None ∧
  ∃ i : Z, (0 ≤ i)%Z ∧
    content c
    = Py.join " " (Py.slice (Py.split page.1) i
                            (i + PDFProcessor.chunk_size self)).

(** A string of white space only. *)
Fixpoint all_space (s : string) : Prop :=
  match s with
  | EmptyString => True
  | String a s' => Py.isspace a = true ∧ all_space s'
  end.

(** Higher key first; among equal keys, [R]. *)
Definition ranks {A : Type} (key : A → nat) (R : relation A) (a b : A)
  : Prop :=
  (key b < key a)%nat ∨ (key a = key b ∧ R a b).

(** The keyword score of a chunk: the number of lower-cased words it shares
    with the query. *)
Definition overlap (query : string) (c : DocumentChunk) : nat :=
  size (HealthLink.word_set query ∩ HealthLink.word_set (content c)).

Definition id_lt (a b : DocumentChunk) : Prop := (chunk_id a < chunk_id b)%Z.

(** Descending score, ties in ascending [chunk_id]. *)
Definition ranks_before (query : string) : relation DocumentChunk :=
  ranks (overlap query) id_lt.

Section Vocabulary.
Context {world : World} {numpy : Numpy}.

(** The entry of the index for a chunk whose embedding call returned
    [embedding]. *)
Definition index_entry (embedding : option (list float)) : list float :=
  match embedding with
  | Some (x :: v) => np_normalize (x :: v)
  | _ => App.zero_vector
  end.

(** One turn of the embedding loop, on the world alone. *)
Definition embed_step (self : App.EmbeddingService) (w : W)
    (chunk : DocumentChunk) : list float * W :=
  let r := App._get_embedding self (content chunk) "retrieval_document" w in
  (index_entry r.1, r.2).

(** An index is consistent when every chunk has an embedding that is not
    the zero placeholder, or the index has no embedding at all (the
    keyword mode of [search_similar_chunks]). *)
Definition consistent (self : App.EmbeddingService) : Prop :=
  (length (App.embeddings self) = length (App.chunks self)
   ∧ Forall (λ e, e ≠ App.zero_vector) (App.embeddings self))
  ∨ App.embeddings self = [].

(** One turn of the question loop, on the world alone. *)
Definition answer_step (self : QA.QAService) (top_k : Z) (w : W)
    (question : string) : string * W :=
  let context :=
    App.get_context_for_question (QA.embedding_service self) question
                                 top_k w in
  match context.1 with
  | Ok ctx => QA._generate_answer question ctx context.2
  | Raise _ => (QA.not_found, context.2)
  end.
End Vocabulary.

(** Every character of [s] satisfies [P]. *)
Fixpoint chars_all (P : ascii → Prop) (s : string) : Prop :=
  match s with
  | EmptyString => True
  | String a s' => P a ∧ chars_all P s'
  end.

(** A word: not empty, no white space. *)
Definition is_word (w : string) : Prop :=
  w ≠ EmptyString ∧ chars_all (λ a, Py.isspace a = false) w.

(** The windows of a page that [chunk_text] keeps: the slices of
    [chunk_size] words taken every [chunk_size - chunk_overlap] words that
    have at least 10 words. *)
Definition windows_of_page (self : PDFProcessor.t) (page : string * Z)
  : list (list string) :=
  let words := Py.split page.1 in
  (λ i, Py.slice words i (i + PDFProcessor.chunk_size self))
    <$> filter (λ i, 10 ≤ length (Py.slice words i
                                   (i + PDFProcessor.chunk_size self)))%nat
          (default [] (Py.range 0 (Z.of_nat (length words))
                         (PDFProcessor.chunk_size self
                          - PDFProcessor.chunk_overlap self))).

(** The text and the page number of the chunk of a window. *)
Definition chunk_of_window (page : string * Z) (window : list string)
  : string * option Z :=
  (Py.join " " window, Some page.2).

(** The chunk with number [id] of a text and its page number. *)
Definition numbered (id : Z) (tp : string * option Z) : DocumentChunk :=
  {| content := tp.1; chunk_id := id; page_number := tp.2;
     embedding := None |}.

(** [a] is of a page not after the page of [b]. *)
Definition page_le (a b : DocumentChunk) : Prop :=
  ∃ m n, page_number a = Some m ∧ page_number b = Some n ∧ (m ≤ n)%Z.

(** ** Concrete inputs *)

Module Demo.

Definition page_500 : string := Py.join " " (replicate 500 "word").
Definition page_450 : string := Py.join " " (replicate 450 "term").
Definition blank_page : string := "   ".

Definition long_document : @pdf_bytes Scripted.World_instance :=
  [page_500; blank_page; page_450].

Definition short_pages : list string :=
  ["a b c d e f g h i j k l"; "  "; "x y z 1 2 3 4 5 6 7 8 9"].

Definition short_chunks : list DocumentChunk :=
  [mk_chunk "a b c d e f g h i j k l" 0 1;
   mk_chunk "x y z 1 2 3 4 5 6 7 8 9" 1 3].

(** A world that serves one document, embeds the first chunk and fails on
    the second, and whose generative model fails on its second call. *)
Definition world : @W Scripted.World_instance :=
  {| Scripted.served := [("https://example.org/doc.pdf", short_pages)];
     Scripted.embed_calls := [Some [3; 4]%float; None];
     Scripted.generate_calls :=
       [Some (Some " Answer: yes "); None; Some (Some "no")] |}.

Definition fresh_index : App.EmbeddingService :=
  {| App.chunks := []; App.embeddings := []; App.client := true |}.

Definition service : QA.QAService :=
  {| QA.pdf_processor := PDFProcessor.new settings;
     QA.embedding_service := fresh_index |}.

Definition request : QARequest :=
  {| documents := "https://example.org/doc.pdf";
     questions := ["first?"; "second?"; "third?"] |}.

Definition animal_chunks : list DocumentChunk :=
  [mk_chunk "the cat sat" 0 1;
   mk_chunk "a dog barked loudly" 1 1;
   mk_chunk "The Dog and the cat" 2 2;
   mk_chunk "nothing here" 3 3].

Definition keyword_index : HealthLink.EmbeddingService :=
  {| HealthLink.chunks := animal_chunks |}.

Definition fallback_index : App.EmbeddingService :=
  {| App.chunks := animal_chunks; App.embeddings := [];
     App.client := true |}.

End Demo.

(** ** More concrete inputs *)

Module Samples.

(** Five bytes in two chunks and an empty keep-alive chunk. *)
Definition small_response : Transport.Response :=
  {| Transport.status_error := None;
     Transport.content_length := Some "5";
     Transport.body :=
       [[Byte.x25; Byte.x50; Byte.x44; Byte.x46]; []; [Byte.x2d]];
     Transport.stream_error := None |}.

(** Five bytes sent without a declared length. *)
Definition undeclared_response : Transport.Response :=
  {| Transport.status_error := None;
     Transport.content_length := None;
     Transport.body := [[Byte.x25; Byte.x50; Byte.x44]; [Byte.x46; Byte.x2d]];
     Transport.stream_error := None |}.

(** A response that declares one byte more than [MAX_FILE_SIZE]. *)
Definition declared_response : Transport.Response :=
  {| Transport.status_error := None;
     Transport.content_length := Some "52428801";
     Transport.body := [[Byte.x25]];
     Transport.stream_error := None |}.

Definition net : @Transport.Net Scripted_http.Http_instance :=
  [("https://example.org/small.pdf", small_response);
   ("https://example.org/undeclared.pdf", undeclared_response);
   ("https://example.org/declared.pdf", declared_response)].

(** A world whose provider fails on the next embedding call. *)
Definition silent_world : @W Scripted.World_instance :=
  {| Scripted.served := [("https://example.org/short.pdf",
                          ["a b c"; "  "; "d e"]);
                         ("https://example.org/blank.pdf", ["  "; EmptyString])];
     Scripted.embed_calls := [None];
     Scripted.generate_calls := [] |}.

(** A world whose provider embeds the next text. *)
Definition embedding_world : @W Scripted.World_instance :=
  {| Scripted.served := [];
     Scripted.embed_calls := [Some [3; 4]%float];
     Scripted.generate_calls := [] |}.

Definition semantic_index : App.EmbeddingService :=
  {| App.chunks := Demo.animal_chunks;
     App.embeddings := [[1; 0]; [0; 1]; [3 / 5; 4 / 5]; [0; 1]]%float;
     App.client := true |}.

(** An index whose third embedding has three components. *)
Definition ragged_index : App.EmbeddingService :=
  {| App.chunks := Demo.animal_chunks;
     App.embeddings := [[1; 0]; [0; 1]; [1; 0; 0]; [0; 1]]%float;
     App.client := true |}.

Definition offline_index : App.EmbeddingService :=
  {| App.chunks := []; App.embeddings := []; App.client := false |}.

(** A processor whose chunk size is its overlap: the step of the windows
    is 0. *)
Definition stalled : PDFProcessor.t :=
  {| PDFProcessor.chunk_size := 50; PDFProcessor.chunk_overlap := 50 |}.

(** Windows of 12 words every 3 words, on a page of 14 words. *)
Definition narrow : PDFProcessor.t :=
  {| PDFProcessor.chunk_size := 12; PDFProcessor.chunk_overlap := 9 |}.

Definition alphabet_pages : list (string * Z) :=
  [("a b c d e f g h i j k l m n", 1%Z)].

Definition alphabet_chunks : list DocumentChunk :=
  [mk_chunk "a b c d e f g h i j k l" 0 1;
   mk_chunk "d e f g h i j k l m n" 1 1].

End Samples.

(** * Properties *)

(** ** The stable descending sort *)

Section Sorting.
Context {A : Type} (key : A → nat) (R : relation A).

Lemma insert_desc_perm x l : Py.insert_desc Nat.ltb key x l ≡ₚ x :: l.
Proof.
  induction l as [|y l IH]; simpl; [done|].
  destruct (key x <? key y)%nat; [|done].
  rewrite IH. apply Permutation_swap.
Qed.

Lemma sort_desc_perm l : Py.sort_desc Nat.ltb key l ≡ₚ l.
Proof.
  induction l as [|x l IH]; simpl; [done|].
  by rewrite insert_desc_perm, IH.
Qed.

Lemma insert_desc_sorted x l :
  StronglySorted (ranks key R) l → Forall (R x) l →
  StronglySorted (ranks key R) (Py.insert_desc Nat.ltb key x l).
Proof.
  induction l as [|y l IH]; simpl; intros Hl Hx.
  { repeat constructor. }
  apply StronglySorted_cons in Hl as [Hy Hl].
  apply Forall_cons in Hx as [Hxy Hx].
  destruct (Nat.ltb_spec (key x) (key y)) as [Hlt|Hge].
  - apply StronglySorted_cons. split; [|by apply IH].
    rewrite insert_desc_perm. constructor; [by left|done].
  - apply StronglySorted_cons. split; [|by apply StronglySorted_cons].
    assert (ranks key R x y) as Hrxy.
    { unfold ranks. destruct (decide (key y = key x)); [right|left]; [done|lia]. }
    constructor; [done|].
    rewrite Forall_forall in Hy, Hx |- *. intros z Hz.
    specialize (Hy z Hz). specialize (Hx z Hz). unfold ranks in *.
    destruct (decide (key z = key x)); [right|left]; [done|lia].
Qed.

Lemma sort_desc_sorted l :
  StronglySorted R l → StronglySorted (ranks key R) (Py.sort_desc Nat.ltb key l).
Proof.
  induction l as [|x l IH]; simpl; intros Hl; [constructor|].
  apply StronglySorted_cons in Hl as [Hx Hl].
  apply insert_desc_sorted; [by apply IH|].
  by rewrite sort_desc_perm.
Qed.

(** Sorting pairs [(x, key x)] on their second component is sorting the
    [x] on [key]. *)
Lemma insert_desc_decorated x l :
  Py.insert_desc Nat.ltb snd (x, key x) ((λ y, (y, key y)) <$> l)
  = (λ y, (y, key y)) <$> Py.insert_desc Nat.ltb key x l.
Proof.
  induction l as [|y l IH]; csimpl; [done|].
  destruct (key x <? key y)%nat; csimpl; [by rewrite IH|done].
Qed.

Lemma sort_desc_decorated l :
  Py.sort_desc Nat.ltb snd ((λ y, (y, key y)) <$> l)
  = (λ y, (y, key y)) <$> Py.sort_desc Nat.ltb key l.
Proof.
  induction l as [|x l IH]; [done|].
  rewrite fmap_cons. unfold Py.sort_desc in *. cbn [foldr].
  rewrite IH. apply insert_desc_decorated.
Qed.
End Sorting.

(** ** Slices *)

Section Slices.
Context {A : Type}.

Lemma slice_to_nonneg (l : list A) (k : Z) :
  (0 ≤ k)%Z → Py.slice_to l k = take (Z.to_nat k) l.
Proof.
  intros Hk. unfold Py.slice_to, Py.slice, Py.clamp.
  destruct (Z.ltb_spec k 0); [lia|].
  change (0 <? 0)%Z with false. cbn iota.
  rewrite (Z.min_r _ 0), Z.sub_0_r by lia. cbn [Z.to_nat drop].
  destruct (Z.min_spec (Z.of_nat (length l)) k) as [[? ->]|[? ->]].
  - rewrite Nat2Z.id, !take_ge; [done|lia|done].
  - done.
Qed.

Lemma take_app_take (l1 l2 : list A) (k : nat) :
  take k (l1 ++ take (k - length l1) l2) = take k (l1 ++ l2).
Proof. rewrite !take_app, take_take. do 2 f_equal. lia. Qed.
End Slices.

(** ** Extraction and chunking *)

Section Chunking.
Context {world : World}.
Import PDFProcessor.

Lemma result_bind_Ok {A B} (a : A) (k : A → result B) : Ok a ≫= k = k a.
Proof. done. Qed.

Lemma range_nonneg stop step l i :
  (0 ≤ stop)%Z → Py.range 0 stop step = Some l → i ∈ l → (0 ≤ i)%Z.
Proof.
  unfold Py.range. intros Hstop.
  destruct (Z.eqb_spec step 0) as [|Hstep]; [done|]. intros [= <-].
  rewrite list_elem_of_fmap. intros (j & -> & Hj).
  apply elem_of_seq in Hj.
  destruct (Z.ltb_spec 0 step) as [Hpos|Hneg]; [lia|].
  assert ((0 - stop - step - 1) / - step < 1)%Z; [|lia].
  apply Z.div_lt_upper_bound; lia.
Qed.

Lemma range_is_Some start stop step :
  step ≠ 0%Z → is_Some (Py.range start stop step).
Proof.
  intros Hstep. unfold Py.range.
  destruct (Z.eqb_spec step 0); [done|eauto].
Qed.

Lemma chunk_windows_spec self words pn windows st :
  ∃ new,
    fold_left (chunk_window self words pn) windows st
      = (st.1 ++ new, (st.2 + Z.of_nat (length new))%Z)
    ∧ map chunk_id new = seqZ st.2 (Z.of_nat (length new))
    ∧ Forall (λ c, page_number c = Some pn ∧ embedding c = None ∧
                   ∃ i, i ∈ windows ∧
                     content c = Py.join " " (Py.slice words i (i + chunk_size self)))
             new.
Proof.
  revert st. induction windows as [|i windows IH]; intros st.
  - exists []. simpl. rewrite app_nil_r, Z.add_0_r. by destruct st.
  - simpl. unfold chunk_window at 2.
    destruct (length (Py.slice words i (i + chunk_size self)) <? 10)%nat.
    + destruct (IH st) as (new & -> & Hids & Hall).
      exists new. split_and!; [done..|].
      eapply Forall_impl; [done|]. simpl. intros c (? & ? & j & ? & ?).
      split_and!; [done..|]. exists j. split; [by right|done].
    + match goal with |- context [fold_left _ _ (?a ++ [?c], ?b)] =>
        destruct (IH (a ++ [c], b)) as (new & -> & Hids & Hall);
        exists (c :: new) end.
      simpl in *. split_and!.
      * rewrite <-app_assoc. simpl. f_equal. lia.
      * rewrite (seqZ_cons st.2) by lia. f_equal.
        rewrite Hids. f_equal; lia.
      * constructor.
        -- simpl. split_and!; [done..|]. exists i. split; [by left|done].
        -- eapply Forall_impl; [done|]. simpl. intros c (? & ? & j & ? & ?).
           split_and!; [done..|]. exists j. split; [by right|done].
Qed.

Lemma chunk_pages_spec self pages st r :
  for_each (chunk_page self) pages st = Ok r →
  ∃ new,
    r = (st.1 ++ new, (st.2 + Z.of_nat (length new))%Z)
    ∧ map chunk_id new = seqZ st.2 (Z.of_nat (length new))
    ∧ Forall (λ c, ∃ page, page ∈ pages ∧ window_of self page c) new.
Proof.
  revert st. induction pages as [|page pages IH]; intros st.
  - simpl. intros [= <-]. exists []. simpl.
    rewrite app_nil_r, Z.add_0_r. by destruct st.
  - intros Hloop. simpl in Hloop.
    destruct (chunk_page self st page) as [st1|] eqn:Hpage; [|done].
    unfold chunk_page in Hpage.
    destruct (Py.range 0 (Z.of_nat (length (Py.split page.1)))
              (chunk_size self - chunk_overlap self))
      as [windows|] eqn:Hrange; [|done].
    injection Hpage as <-.
    destruct (chunk_windows_spec self (Py.split page.1) page.2 windows st)
      as (new1 & Hnew1 & Hids1 & Hall1).
    rewrite Hnew1 in Hloop.
    apply IH in Hloop as (new2 & -> & Hids2 & Hall2).
    simpl in *. exists (new1 ++ new2). split_and!.
    + rewrite <-app_assoc, length_app. f_equal. lia.
    + rewrite map_app, length_app, Nat2Z.inj_add, seqZ_app by lia.
      by rewrite Hids1, Hids2.
    + apply Forall_app. split.
      * eapply Forall_impl; [done|]. simpl. intros c (? & ? & i & Hi & ?).
        exists page. split; [by left|]. split_and!; [done..|].
        exists i. split; [|done].
        eapply range_nonneg; [|done..]. lia.
      * eapply Forall_impl; [done|]. simpl. intros c (p & ? & ?).
        exists p. split; [by right|done].
Qed.

Lemma chunk_pages_total self pages st :
  (chunk_size self - chunk_overlap self ≠ 0)%Z →
  ∃ r, for_each (chunk_page self) pages st = Ok r.
Proof.
  intros Hstep. revert st. induction pages as [|page pages IH]; intros st.
  - by eexists.
  - simpl.
    assert (∃ st', chunk_page self st page = Ok st') as [st' ->].
    { unfold chunk_page.
      destruct (range_is_Some 0 (Z.of_nat (length (Py.split page.1))) _ Hstep)
        as [windows ->]. by eexists. }
    apply IH.
Qed.

Lemma chunk_text_spec self text_pages chunks :
  chunk_text self text_pages = Ok chunks →
  map chunk_id chunks = seqZ 0 (Z.of_nat (length chunks))
  ∧ Forall (λ c, ∃ page, page ∈ text_pages ∧ window_of self page c) chunks.
Proof.
  unfold chunk_text.
  destruct (for_each _ _ _) as [r|] eqn:Hloop; [|done].
  simpl. intros [= <-].
  apply chunk_pages_spec in Hloop as (new & -> & ? & ?). done.
Qed.

Lemma chunk_text_total self text_pages :
  (chunk_size self - chunk_overlap self ≠ 0)%Z →
  ∃ chunks, chunk_text self text_pages = Ok chunks.
Proof.
  intros Hstep. unfold chunk_text.
  destruct (chunk_pages_total self text_pages ([], 0%Z) Hstep) as [r ->].
  by eexists.
Qed.




(** Blank text has no words. *)
Lemma lstrip_empty s : Py.lstrip s = EmptyString → all_space s.
Proof.
  induction s as [|a s IH]; simpl; [done|].
  destruct (Py.isspace a) eqn:Ha; [auto|done].
Qed.

Lemma all_space_rev_app s1 s2 :
  all_space (String.rev_app s1 s2) → all_space s1 ∧ all_space s2.
Proof.
  revert s2. induction s1 as [|a s1 IH]; intros s2; simpl; [done|].
  intros Hs. apply IH in Hs. simpl in Hs. tauto.
Qed.

Lemma rev_app_empty s1 s2 :
  String.rev_app s1 s2 = EmptyString → s1 = EmptyString.
Proof.
  revert s2. induction s1 as [|a s1 IH]; intros s2; simpl; [done|].
  intros Hs. pose proof (IH _ Hs) as ->. simpl in Hs. done.
Qed.

Lemma all_space_split s : all_space s → Py.split s = [].
Proof.
  unfold Py.split. induction s as [|a s IH]; simpl; [done|].
  intros [-> ?]. auto.
Qed.

Lemma strip_empty_split s : Py.strip s = EmptyString → Py.split s = [].
Proof.
  unfold Py.strip, Py.rstrip, String.rev. intros Hs.
  apply rev_app_empty in Hs. apply lstrip_empty in Hs.
  apply all_space_rev_app in Hs as [Hs _].
  destruct (Py.lstrip s) as [|a t] eqn:Hl.
  - by apply all_space_split, lstrip_empty.
  - exfalso. destruct Hs as [Ha _]. clear -Hl Ha.
    induction s as [|b s IH]; simpl in Hl; [done|].
    destruct (Py.isspace b) eqn:Hb; [auto|]. congruence.
Qed.

Lemma length_slice {A} (l : list A) (lo hi : Z) :
  (0 ≤ lo ≤ hi)%Z →
  length (Py.slice l lo hi)
  = Z.to_nat (Z.min (Z.of_nat (length l)) hi - Z.min (Z.of_nat (length l)) lo).
Proof.
  intros ?. unfold Py.slice, Py.clamp.
  destruct (Z.ltb_spec lo 0), (Z.ltb_spec hi 0); try lia.
  rewrite length_take, length_drop. lia.
Qed.

Lemma slice_past_end {A} (l : list A) (lo hi hi' : Z) :
  (Z.of_nat (length l) ≤ hi)%Z → (Z.of_nat (length l) ≤ hi')%Z →
  Py.slice l lo hi = Py.slice l lo hi'.
Proof.
  intros ??. unfold Py.slice, Py.clamp.
  destruct (Z.ltb_spec hi 0), (Z.ltb_spec hi' 0); try lia.
  by rewrite (Z.min_l _ hi), (Z.min_l _ hi') by lia.
Qed.

Lemma extract_pages_spec (doc : list string) (k : nat) acc tp :
  tp ∈ fold_left extract_page (zip (map Z.of_nat (seq k (length doc))) doc) acc →
  tp ∈ acc ∨
  ∃ (idx : nat) raw,
    doc !! idx = Some raw ∧ tp = (_clean_text raw, (Z.of_nat (k + idx) + 1)%Z).
Proof.
  revert k acc. induction doc as [|raw doc IH]; intros k acc; simpl; [auto|].
  intros Htp. apply IH in Htp as [Htp|(idx & raw' & ? & ->)].
  - unfold extract_page in Htp. simpl in Htp.
    destruct (Py.strip (_clean_text raw)); [auto|].
    apply elem_of_app in Htp as [?|Htp]; [auto|].
    apply list_elem_of_singleton in Htp as ->.
    right. exists 0%nat, raw. split; [done|]. do 2 f_equal. lia.
  - right. exists (S idx), raw'. split; [done|]. do 2 f_equal. lia.
Qed.

Lemma chunk_window_keep self words pn st i :
  (10 ≤ length (Py.slice words i (i + chunk_size self)))%nat →
  chunk_window self words pn st i
  = (st.1 ++ [mk_chunk (Py.join " " (Py.slice words i (i + chunk_size self)))
                       st.2 pn],
     (st.2 + 1)%Z).
Proof.
  intros Hlen. unfold chunk_window.
  destruct (Nat.ltb_spec (length (Py.slice words i (i + chunk_size self))) 10);
    [lia|done].
Qed.

Lemma clean_text_no_words p : Py.split p = [] → _clean_text p = EmptyString.
Proof. unfold _clean_text. by intros ->. Qed.

Lemma chunk_page_windows self st page windows :
  Py.range 0 (Z.of_nat (length (Py.split page.1)))
           (chunk_size self - chunk_overlap self) = Some windows →
  chunk_page self st page
  = Ok (fold_left (chunk_window self (Py.split page.1) page.2) windows st).
Proof. unfold chunk_page. by intros ->. Qed.

Lemma extract_page_keep acc i raw :
  Py.strip (_clean_text raw) ≠ EmptyString →
  extract_page acc (i, raw) = acc ++ [(_clean_text raw, (i + 1)%Z)].
Proof.
  intros Hne. unfold extract_page. simpl.
  by destruct (Py.strip (_clean_text raw)).
Qed.

Lemma extract_page_blank acc i raw :
  _clean_text raw = EmptyString → extract_page acc (i, raw) = acc.
Proof. intros Hblank. unfold extract_page. simpl. by rewrite Hblank. Qed.

(** C5.  A document of three pages with 500 words, no word, and 450
    words, chunked with the default settings (400 words, overlap 50):
    the blank page is dropped; page 1 gives [words[0:400]] and
    [words[350:500]] (150 words), page 3 gives [words[0:400]] and
    [words[350:450]]; the chunk ids are 0, 1, 2, 3 in page order. *)
Theorem chunking_scenario_500_0_450 pdf (p1 p2 p3 : string) :
  page_texts pdf = Ok [p1; p2; p3] →
  length (Py.split (_clean_text p1)) = 500%nat →
  length (Py.split p2) = 0%nat →
  length (Py.split (_clean_text p3)) = 450%nat →
  let words1 := Py.split (_clean_text p1) in
  let words3 := Py.split (_clean_text p3) in
  extract_text_from_pdf pdf = Ok [(_clean_text p1, 1%Z); (_clean_text p3, 3%Z)]
  ∧ chunk_text (new settings) [(_clean_text p1, 1%Z); (_clean_text p3, 3%Z)]
    = Ok [mk_chunk (Py.join " " (Py.slice words1 0 400)) 0 1;
          mk_chunk (Py.join " " (Py.slice words1 350 500)) 1 1;
          mk_chunk (Py.join " " (Py.slice words3 0 400)) 2 3;
          mk_chunk (Py.join " " (Py.slice words3 350 450)) 3 3]
  ∧ length (Py.slice words1 0 400) = 400%nat
  ∧ length (Py.slice words1 350 500) = 150%nat
  ∧ length (Py.slice words3 0 400) = 400%nat
  ∧ length (Py.slice words3 350 450) = 100%nat.
Proof.
  intros Hdoc Hp1 Hp2 Hp3 words1 words3.
  assert (Py.strip (_clean_text p1) ≠ EmptyString) as Hne1.
  { intros Hs%strip_empty_split. by rewrite Hs in Hp1. }
  assert (Py.strip (_clean_text p3) ≠ EmptyString) as Hne3.
  { intros Hs%strip_empty_split. by rewrite Hs in Hp3. }
  assert (_clean_text p2 = EmptyString) as Hblank.
  { apply clean_text_no_words. by destruct (Py.split p2). }
  assert (∀ lo hi : Z, (0 ≤ lo ≤ hi)%Z →
            length (Py.slice words1 lo hi) = Z.to_nat (Z.min 500 hi - Z.min 500 lo))
    as Hlen1.
  { intros lo hi ?. rewrite length_slice by done. subst words1.
    by rewrite Hp1. }
  assert (∀ lo hi : Z, (0 ≤ lo ≤ hi)%Z →
            length (Py.slice words3 lo hi) = Z.to_nat (Z.min 450 hi - Z.min 450 lo))
    as Hlen3.
  { intros lo hi ?. rewrite length_slice by done. subst words3.
    by rewrite Hp3. }
  split_and!.
  - unfold extract_text_from_pdf. rewrite Hdoc. simpl.
    rewrite (extract_page_keep [] _ p1), (extract_page_blank _ _ p2),
      (extract_page_keep _ _ p3) by done.
    done.
  - unfold chunk_text. cbn [for_each].
    rewrite (chunk_page_windows _ _ _ [0; 350]%Z)
      by (cbn [fst]; fold words1; by replace (length words1) with 500%nat).
    rewrite result_bind_Ok.
    rewrite (chunk_page_windows _ _ _ [0; 350]%Z)
      by (cbn [fst]; fold words3; by replace (length words3) with 450%nat).
    rewrite !result_bind_Ok. cbn [fold_left fst snd].
    fold words1 words3.
    rewrite (chunk_window_keep _ words1 _ _ 0) by (rewrite Hlen1; simpl; lia).
    rewrite (chunk_window_keep _ words1) by (rewrite Hlen1; simpl; lia).
    rewrite (chunk_window_keep _ words3 _ _ 0) by (rewrite Hlen3; simpl; lia).
    rewrite (chunk_window_keep _ words3) by (rewrite Hlen3; simpl; lia).
    cbn [fst snd new chunk_size settings CHUNK_SIZE reraise app].
    rewrite (slice_past_end words1 350 _ 500) by (subst words1; lia).
    rewrite (slice_past_end words3 350 _ 450) by (subst words3; lia).
    done.
  - rewrite Hlen1 by lia. reflexivity.
  - rewrite Hlen1 by lia. reflexivity.
  - rewrite Hlen3 by lia. reflexivity.
  - rewrite Hlen3 by lia. reflexivity.
Qed.

Lemma page_info_tag c n :
  page_number c = Some n → n ≠ 0%Z →
  HealthLink.page_info c = "[Page " +:+ pretty n +:+ "]"
  ∧ App.page_info c = "[Page " +:+ pretty n +:+ "]".
Proof.
  intros Hc Hn. unfold HealthLink.page_info, App.page_info. rewrite Hc. simpl.
  by destruct (Z.eqb_spec n 0).
Qed.

(** C10.  Every chunk that [process_pdf] returns carries the 1-based index
    [n >= 1] of the page of the document it is a window of, so its tag in
    an assembled context is [[Page n]], never [[Unknown Page]]. *)
Theorem pipeline_chunks_carry_page_number self url w chunks w' :
  process_pdf self url w = (Ok chunks, w') →
  ∃ pdf pages,
    download_pdf url w = (Ok pdf, w')
    ∧ page_texts pdf = Ok pages
    ∧ Forall (λ c, ∃ (n : Z) raw,
                page_number c = Some n
                ∧ (1 ≤ n)%Z
                ∧ pages !! Z.to_nat (n - 1) = Some raw
                ∧ window_of self (_clean_text raw, n) c
                ∧ HealthLink.page_info c = "[Page " +:+ pretty n +:+ "]"
                ∧ HealthLink.page_info c ≠ "[Unknown Page]")
             chunks.
Proof.
  unfold process_pdf.
  destruct (download_pdf url w) as [[pdf|] w1] eqn:Hdl; [|done].
  rewrite result_bind_Ok. unfold extract_text_from_pdf.
  destruct (page_texts pdf) as [pages|] eqn:Hpages; [|done].
  rewrite result_bind_Ok. cbn [reraise]. rewrite result_bind_Ok.
  destruct (fold_left extract_page (enumerate pages) []) as [|tp tps] eqn:Hex;
    [done|].
  destruct (chunk_text self (tp :: tps)) as [cs|] eqn:Hchunks; [|done].
  rewrite result_bind_Ok. destruct cs as [|c cs]; [done|].
  intros [= <- <-]. exists pdf, pages. split_and!; [done..|].
  apply chunk_text_spec in Hchunks as [_ Hall].
  eapply Forall_impl; [done|]. simpl. intros c' (page & Hpage & Hwin).
  rewrite <-Hex in Hpage. unfold enumerate in Hpage.
  apply extract_pages_spec in Hpage as [Hpage|(idx & raw & Hraw & ->)].
  { by apply elem_of_nil in Hpage. }
  exists (Z.of_nat idx + 1)%Z, raw.
  destruct Hwin as (Hnum & ?). simpl in Hnum.
  destruct (page_info_tag c' _ Hnum) as [Htag _]; [lia|].
  split_and!; [done|lia| |done|done|by rewrite Htag].
  by replace (Z.to_nat (Z.of_nat idx + 1 - 1)) with idx by lia.
Qed.
End Chunking.

(** ** Keyword retrieval *)

Section KeywordSearch.
Import HealthLink.

Lemma scored_chunks_spec query l acc :
  fold_left (score_chunk (word_set query)) l acc
  = acc ++ ((λ c, (c, overlap query c))
              <$> filter (λ c, 0 < overlap query c)%nat l).
Proof.
  revert acc. induction l as [|c l IH]; intros acc; simpl.
  { by rewrite app_nil_r. }
  rewrite IH. unfold score_chunk. fold (overlap query c).
  rewrite filter_cons.
  destruct (Nat.ltb_spec 0 (overlap query c)).
  - rewrite decide_True by done. by rewrite <-app_assoc.
  - rewrite decide_False by lia. done.
Qed.

Lemma fill_slots_spec used top_k l similar :
  fold_left (fill_slot used top_k) l similar
  = similar ++ take (Z.to_nat top_k - length similar)
                    (filter (λ c, chunk_id c ∉ used) l).
Proof.
  revert similar. induction l as [|c l IH]; intros similar; cbn [fold_left].
  { by rewrite filter_nil, take_nil, app_nil_r. }
  rewrite IH, filter_cons. unfold fill_slot.
  destruct (decide (chunk_id c ∉ used)) as [Hc|Hc].
  - rewrite bool_decide_true by done. simpl.
    destruct (Z.ltb_spec (Z.of_nat (length similar)) top_k).
    + rewrite <-app_assoc, length_app. simpl.
      replace (Z.to_nat top_k - length similar)%nat
        with (S (Z.to_nat top_k - (length similar + 1)))%nat by lia.
      done.
    + replace (Z.to_nat top_k - length similar)%nat with 0%nat by lia.
      by rewrite !take_0.
  - rewrite bool_decide_false by done. done.
Qed.

Lemma id_lt_sorted l :
  StronglySorted Z.lt (map chunk_id l) → StronglySorted id_lt l.
Proof.
  induction l as [|c l IH]; simpl; [constructor|].
  intros [Hc Hl]%StronglySorted_cons. apply StronglySorted_cons.
  split; [|by apply IH].
  apply Forall_forall. intros c' Hc'.
  apply (proj1 (Forall_forall _ _) Hc).
  by apply (list_elem_of_fmap_2 chunk_id).
Qed.

Lemma sorted_filter {A} (R : relation A) (P : A → Prop)
    `{∀ x, Decision (P x)} l :
  StronglySorted R l → StronglySorted R (filter P l).
Proof.
  induction 1 as [|x l Hl IH Hx]; [constructor|].
  rewrite filter_cons. case_decide; [|done].
  constructor; [done|].
  apply Forall_forall. intros y [_ Hy]%list_elem_of_filter.
  by apply (proj1 (Forall_forall _ _) Hx).
Qed.

Lemma filter_iff_on {A} (P1 P2 : A → Prop)
    `{!∀ x, Decision (P1 x), !∀ x, Decision (P2 x)} (l : list A) :
  (∀ x, x ∈ l → P1 x ↔ P2 x) → filter P1 l = filter P2 l.
Proof.
  induction l as [|x l IH]; intros Hiff; [done|].
  rewrite !filter_cons, IH by (intros; apply Hiff; by right).
  destruct (decide (P1 x)) as [H1|H1], (decide (P2 x)) as [H2|H2];
    try done; apply Hiff in H1 || apply Hiff in H2; done || by left.
Qed.

Lemma fmap_inj_on {A B} (f : A → B) (l : list A) x y :
  NoDup (f <$> l) → x ∈ l → y ∈ l → f x = f y → x = y.
Proof.
  induction l as [|z l IH]; csimpl; [by intros _ ?%elem_of_nil|].
  intros [Hz Hl]%NoDup_cons [->|Hx]%elem_of_cons [->|Hy]%elem_of_cons Hf;
    [done| | |by apply IH].
  - destruct Hz. rewrite Hf. by apply list_elem_of_fmap_2.
  - destruct Hz. rewrite <-Hf. by apply list_elem_of_fmap_2.
Qed.

Lemma sorted_lt_NoDup (l : list Z) : StronglySorted Z.lt l → NoDup l.
Proof.
  induction 1 as [|x l Hl IH Hx]; constructor; [|done].
  intros Hin. rewrite Forall_forall in Hx. specialize (Hx x Hin). lia.
Qed.

Lemma unused_are_unscored query l positive :
  NoDup (map chunk_id l) →
  positive ≡ₚ filter (λ c, 0 < overlap query c)%nat l →
  filter (λ c, chunk_id c ∉ (list_to_set (map chunk_id positive) : gset Z)) l
  = filter (λ c, ¬ (0 < overlap query c)%nat) l.
Proof.
  intros Hnd Hperm. apply filter_iff_on. intros c Hc.
  rewrite elem_of_list_to_set. split.
  - intros Hid Hpos. apply Hid, list_elem_of_fmap_2.
    rewrite Hperm. by apply list_elem_of_filter.
  - intros Hpos (c' & Hid & Hc')%list_elem_of_fmap.
    rewrite Hperm in Hc'. apply list_elem_of_filter in Hc' as [Hpos' Hc'].
    by rewrite (fmap_inj_on chunk_id l c c') in Hpos.
Qed.

Lemma map_fst_decorated {A B} (f : A → B) (l : list A) :
  map fst ((λ y, (y, f y)) <$> l) = l.
Proof. induction l; csimpl; by f_equal. Qed.

Lemma search_similar_chunks_built self query top_k :
  chunks self ≠ [] →
  search_similar_chunks self query top_k
  = Ok (let scored_chunks :=
          Py.sort_desc Nat.ltb snd
            (fold_left (score_chunk (word_set query)) (chunks self) []) in
        let similar_chunks := map fst (Py.slice_to scored_chunks top_k) in
        Py.slice_to
          (if (Z.of_nat (length similar_chunks) <? top_k)%Z
           then fold_left
                  (fill_slot (list_to_set (map chunk_id similar_chunks)) top_k)
                  (chunks self) similar_chunks
           else similar_chunks)
          top_k).
Proof. unfold search_similar_chunks. by destruct (chunks self). Qed.

(** C4.  On a built keyword index whose chunk ids ascend strictly, and for
    a count [top_k >= 0], the search returns the first [top_k] elements of
    [positive ++ rest]: [positive] holds the chunks that share a word with
    the query, by descending score with ties in ascending [chunk_id];
    [rest] holds the other chunks in ascending [chunk_id].  The result has
    [min top_k (pool size)] elements, no two of them with the same
    [chunk_id], and only chunks of the index. *)
Theorem keyword_top_k self query top_k :
  chunks self ≠ [] →
  StronglySorted Z.lt (map chunk_id (chunks self)) →
  (0 ≤ top_k)%Z →
  ∃ positive rest result,
    search_similar_chunks self query top_k = Ok result
    ∧ result = take (Z.to_nat top_k) (positive ++ rest)
    ∧ positive ≡ₚ filter (λ c, 0 < overlap query c)%nat (chunks self)
    ∧ StronglySorted (ranks_before query) positive
    ∧ rest = filter (λ c, ¬ (0 < overlap query c)%nat) (chunks self)
    ∧ StronglySorted id_lt rest
    ∧ length result = (Z.to_nat top_k `min` length (chunks self))%nat
    ∧ NoDup (map chunk_id result)
    ∧ result ⊆ chunks self.
Proof.
  intros Hne Hsorted Hk.
  set (positive := Py.sort_desc Nat.ltb (overlap query)
                     (filter (λ c, 0 < overlap query c)%nat (chunks self))).
  set (rest := filter (λ c, ¬ (0 < overlap query c)%nat) (chunks self)).
  assert (positive ≡ₚ filter (λ c, 0 < overlap query c)%nat (chunks self))
    as Hperm by apply sort_desc_perm.
  assert (positive ++ rest ≡ₚ chunks self) as Hall.
  { rewrite Hperm. apply filter_app_complement. }
  exists positive, rest, (take (Z.to_nat top_k) (positive ++ rest)).
  split_and!; [|done|done| |done| | | |].
  - rewrite search_similar_chunks_built by done. f_equal.
    rewrite scored_chunks_spec, app_nil_l, sort_desc_decorated.
    fold positive. rewrite !slice_to_nonneg by done.
    rewrite <-fmap_take, map_fst_decorated.
    destruct (Z.ltb_spec (Z.of_nat (length (take (Z.to_nat top_k) positive)))
                         top_k) as [Hlt|Hge].
    + rewrite length_take in Hlt.
      rewrite (take_ge positive) by lia.
      rewrite fill_slots_spec, (unused_are_unscored query) by
        (done || by apply sorted_lt_NoDup).
      fold rest. apply take_app_take.
    + rewrite length_take in Hge.
      rewrite take_take, Nat.min_id, take_app_le by lia. done.
  - apply sort_desc_sorted, sorted_filter. by apply id_lt_sorted.
  - apply sorted_filter. by apply id_lt_sorted.
  - by rewrite length_take, Hall.
  - eapply sublist_NoDup; [|apply fmap_sublist, sublist_take].
    change (NoDup (chunk_id <$> positive ++ rest)). rewrite Hall.
    by apply sorted_lt_NoDup.
  - etrans; [apply subseteq_take|]. by rewrite Hall.
Qed.
End KeywordSearch.

(** ** Loops that append one result per element *)

Section Loops.
Context {A B S : Type} (f : list B * S → A → list B * S)
        (step : S → A → B * S).
Hypothesis f_appends :
  ∀ st x, f st x = (st.1 ++ [(step st.2 x).1], (step st.2 x).2).

Lemma appending_loop l st :
  ∃ new,
    (fold_left f l st).1 = st.1 ++ new
    ∧ length new = length l
    ∧ ∀ i x, l !! i = Some x →
        new !! i = Some (step (fold_left f (take i l) st).2 x).1.
Proof.
  revert st. induction l as [|x l IH]; intros st.
  - exists []. by rewrite app_nil_r.
  - cbn [fold_left]. destruct (IH (f st x)) as (new & Hnew & Hlen & Hlook).
    exists ((step st.2 x).1 :: new). split_and!.
    + rewrite Hnew, f_appends. cbn [fst]. by rewrite <-app_assoc.
    + simpl. by rewrite Hlen.
    + intros [|i] y Hy; simpl in *.
      * by injection Hy as ->.
      * by apply Hlook.
Qed.
End Loops.

(** ** The semantic index *)

Section Index.
Context {world : World} {numpy : Numpy}.
Import App.

Lemma embed_chunk_appends self st chunk :
  embed_chunk self st chunk
  = (st.1 ++ [(embed_step self st.2 chunk).1], (embed_step self st.2 chunk).2).
Proof.
  unfold embed_chunk, embed_step.
  destruct (_get_embedding _ _ _ _) as [[[|x v]|] w1]; done.
Qed.

Lemma create_vector_index_eq self l w :
  create_vector_index self l w
  = (Ok (),
     {| chunks := l;
        embeddings := (fold_left (embed_chunk self) l ([], w)).1;
        client := client self |},
     (fold_left (embed_chunk self) l ([], w)).2).
Proof.
  unfold create_vector_index. by destruct (fold_left _ _ _).
Qed.

(** C2, as the code has it.  Building the index never fails and stores
    one embedding per chunk, in chunk order: the normalized vector of the
    provider when the call for that chunk returned a non-empty vector,
    the zero vector of length 768 otherwise.  The index has no embedding
    only when it has no chunk. *)
Theorem index_holds_one_entry_per_chunk self new_chunks w :
  let built := create_vector_index self new_chunks w in
  built.1.1 = Ok ()
  ∧ chunks built.1.2 = new_chunks
  ∧ length (embeddings built.1.2) = length new_chunks
  ∧ (∀ i chunk, new_chunks !! i = Some chunk →
       let before := (create_vector_index self (take i new_chunks) w).2 in
       embeddings built.1.2 !! i
       = Some (index_entry
                 (_get_embedding self (content chunk) "retrieval_document"
                                 before).1))
  ∧ (embeddings built.1.2 = [] ↔ new_chunks = []).
Proof.
  destruct (appending_loop _ _ (embed_chunk_appends self) new_chunks ([], w))
    as (new & Hnew & Hlen & Hlook).
  rewrite create_vector_index_eq. cbn [fst snd chunks embeddings].
  cbn [fst app] in Hnew. rewrite Hnew. split_and!; [done..| |].
  - intros i chunk Hi. rewrite create_vector_index_eq. by apply Hlook.
  - split; intros ->; [|by destruct new].
    by destruct new_chunks.
Qed.

(** C3, as the code has it.  Building either index on an empty chunk list
    returns normally and leaves the index empty; it is the next search on
    that index that raises, and [process_pdf] that refuses to hand an
    empty chunk list to the build. *)
Theorem empty_index_build_succeeds self_hl self w :
  HealthLink.create_vector_index self_hl []
    = (Ok (), {| HealthLink.chunks := [] |})
  ∧ (∀ query top_k,
       HealthLink.search_similar_chunks
         (HealthLink.create_vector_index self_hl []).2 query top_k
       = Raise "Failed to search similar chunks: Text index not initialized. Create index first.")
  ∧ create_vector_index self [] w
    = (Ok (), {| chunks := []; embeddings := []; client := client self |}, w)
  ∧ (∀ query top_k w',
       search_similar_chunks (create_vector_index self [] w).1.2 query top_k w'
       = (Raise "Failed to search similar chunks: Index not initialized. Create index first.", w'))
  ∧ (∀ processor url w0 new_chunks w1,
       PDFProcessor.process_pdf processor url w0 = (Ok new_chunks, w1) →
       new_chunks ≠ []).
Proof.
  split_and!; try done.
  intros processor url w0 new_chunks w1. unfold PDFProcessor.process_pdf.
  destruct (download_pdf url w0) as [[pdf|] w2]; [|done].
  rewrite result_bind_Ok.
  destruct (PDFProcessor.extract_text_from_pdf pdf) as [[|tp tps]|]; [done| |done].
  rewrite result_bind_Ok.
  destruct (PDFProcessor.chunk_text processor (tp :: tps)) as [[|c cs]|];
    [done| |done].
  rewrite result_bind_Ok. by intros [= <- <-].
Qed.

(** C9.  On a non-empty index without embeddings, the search of
    [app/services/embeddings.py] returns what the keyword search of
    [HealthLink/app/services/embeddings.py] returns on the same chunks,
    and calls no provider. *)
Theorem keyword_paths_agree self query top_k w :
  chunks self ≠ [] →
  embeddings self = [] →
  search_similar_chunks self query top_k w
  = (HealthLink.search_similar_chunks
       {| HealthLink.chunks := chunks self |} query top_k, w).
Proof.
  intros Hne Hemb. unfold search_similar_chunks, HealthLink.search_similar_chunks.
  rewrite Hemb. cbn [HealthLink.chunks].
  destruct (chunks self) as [|c l] eqn:Hchunks; [done|].
  rewrite <-Hchunks. reflexivity.
Qed.
End Index.

(** ** Context assembly *)

Section Context_assembly.
Import HealthLink.

Lemma context_parts_spec l acc :
  fold_left (λ parts chunk, parts ++ [page_info chunk +:+ " " +:+ content chunk])
            l acc
  = acc ++ map (λ chunk, page_info chunk +:+ " " +:+ content chunk) l.
Proof.
  revert acc. induction l as [|c l IH]; intros acc; simpl.
  - by rewrite app_nil_r.
  - by rewrite IH, <-app_assoc.
Qed.

(** What the assembly does on chunks whose page number is absent or not
    zero. *)
Lemma assemble_context_spec :
  assemble_context [] = "No relevant context found in the document."
  ∧ (∀ similar_chunks, similar_chunks ≠ [] →
       assemble_context similar_chunks
       = Py.join (newline +:+ newline)
           (map (λ chunk, page_info chunk +:+ " " +:+ content chunk)
                similar_chunks))
  ∧ (∀ chunk n, page_number chunk = Some n → n ≠ 0%Z →
       page_info chunk = "[Page " +:+ pretty n +:+ "]")
  ∧ (∀ chunk, page_number chunk = None → page_info chunk = "[Unknown Page]").
Proof.
  split_and!.
  - done.
  - intros [|c l] Hne; [done|]. unfold assemble_context.
    by rewrite context_parts_spec.
  - intros chunk n Hn ?. by apply page_info_tag.
  - intros chunk Hn. unfold page_info. by rewrite Hn.
Qed.

(** A chunk built by hand with the page number 0 is tagged
    [[Unknown Page]] by both copies of [get_context_for_question]: the test
    [if chunk.page_number] takes the number 0 for an absent one.
    [process_pdf] builds no such chunk (lemma [built_chunks_have_a_page]). *)
Remark page_zero_is_tagged_unknown text id emb :
  let chunk := {| content := text; chunk_id := id; page_number := Some 0%Z;
                  embedding := emb |} in
  page_info chunk = "[Unknown Page]"
  ∧ assemble_context [chunk] = "[Unknown Page] " +:+ text
  ∧ App.page_info chunk = "[Unknown Page]"
  ∧ App.assemble_context [chunk] = "[Unknown Page] " +:+ text.
Proof. intros chunk. split_and!; reflexivity. Qed.
End Context_assembly.

Section Context_tags.
Context {world : World} {numpy : Numpy}.

(** The page numbers that the pipeline gives to chunks count from 1. *)
Lemma built_chunks_have_a_page self url w chunks w' :
  PDFProcessor.process_pdf self url w = (Ok chunks, w') →
  Forall (λ c, ∃ n, page_number c = Some n ∧ (1 ≤ n)%Z) chunks.
Proof.
  unfold PDFProcessor.process_pdf.
  destruct (download_pdf url w) as [[pdf|] w1]; [|done].
  rewrite result_bind_Ok. unfold PDFProcessor.extract_text_from_pdf.
  destruct (page_texts pdf) as [pages|]; [|done].
  rewrite result_bind_Ok. cbn [reraise]. rewrite result_bind_Ok.
  destruct (fold_left PDFProcessor.extract_page (PDFProcessor.enumerate pages) [])
    as [|tp tps] eqn:Hex; [done|].
  destruct (PDFProcessor.chunk_text self (tp :: tps)) as [cs|] eqn:Hchunks;
    [|done].
  rewrite result_bind_Ok. destruct cs as [|c cs]; [done|].
  intros [= <- <-].
  apply chunk_text_spec in Hchunks as [_ Hall].
  eapply Forall_impl; [done|]. simpl. intros c' (page & Hpage & Hnum & _).
  rewrite <-Hex in Hpage. unfold PDFProcessor.enumerate in Hpage.
  apply extract_pages_spec in Hpage as [Hpage|(idx & raw & _ & ->)].
  { by apply elem_of_nil in Hpage. }
  exists (Z.of_nat idx + 1)%Z. split; [done|lia].
Qed.

(** So every sequence of chunks retrieved from an index of such chunks
    meets the condition of the theorem below. *)
Lemma built_chunks_have_no_page_zero self url w chunks w' similar_chunks :
  PDFProcessor.process_pdf self url w = (Ok chunks, w') →
  similar_chunks ⊆ chunks →
  Forall (λ chunk, page_number chunk ≠ Some 0%Z) similar_chunks.
Proof.
  intros Hbuilt%built_chunks_have_a_page Hsub. apply Forall_forall.
  intros c Hc%Hsub. apply (proj1 (Forall_forall _ _) Hbuilt) in Hc.
  destruct Hc as (n & -> & ?). intros [= ->]. lia.
Qed.

Lemma tagged_parts (l : list DocumentChunk) :
  Forall (λ chunk, page_number chunk ≠ Some 0%Z) l →
  map (λ chunk, HealthLink.page_info chunk +:+ " " +:+ content chunk) l
  = map (λ chunk,
           match page_number chunk with
           | Some n => "[Page " +:+ pretty n +:+ "]"
           | None => "[Unknown Page]"
           end +:+ " " +:+ content chunk) l.
Proof.
  induction 1 as [|c l Hc Hl IH]; [done|]. cbn [map]. rewrite IH. f_equal.
  destruct (page_number c) as [n|] eqn:Hn.
  - destruct (page_info_tag c n Hn) as [-> _]; [congruence|done].
  - unfold HealthLink.page_info. by rewrite Hn.
Qed.

(** C7.  The context is a function of the retrieved chunks alone.  For no
    chunk it is the sentinel; otherwise it is the chunks in the order of
    retrieval, each after its tag, [[Page N]] for the page number [N] and
    [[Unknown Page]] for no page number, two chunks being separated by a
    blank line.  Both copies of [get_context_for_question] return it.
    The chunks are those with an absent or a non-zero page number, as all
    the chunks of the pipeline are. *)
Theorem context_assembly_tags_pages (similar_chunks : list DocumentChunk) :
  Forall (λ chunk, page_number chunk ≠ Some 0%Z) similar_chunks →
  let tag chunk :=
    match page_number chunk with
    | Some n => "[Page " +:+ pretty n +:+ "]"
    | None => "[Unknown Page]"
    end in
  let context :=
    match similar_chunks with
    | [] => "No relevant context found in the document."
    | _ =>
        Py.join (HealthLink.newline +:+ HealthLink.newline)
          (map (λ chunk, tag chunk +:+ " " +:+ content chunk) similar_chunks)
    end in
  HealthLink.assemble_context similar_chunks = context
  ∧ App.assemble_context similar_chunks = context
  ∧ (∀ self question top_k,
       HealthLink.search_similar_chunks self question top_k
         = Ok similar_chunks →
       HealthLink.get_context_for_question self question top_k = Ok context)
  ∧ (∀ self question top_k w,
       (App.search_similar_chunks self question top_k w).1
         = Ok similar_chunks →
       (App.get_context_for_question self question top_k w).1 = Ok context).
Proof.
  intros Hpages tag context.
  assert (HealthLink.assemble_context similar_chunks = context) as Hcontext.
  { unfold context. destruct similar_chunks as [|c l]; [done|].
    unfold HealthLink.assemble_context.
    by rewrite context_parts_spec, app_nil_l, tagged_parts. }
  split_and!; [done|exact Hcontext|..].
  - intros self question top_k Hsearch.
    unfold HealthLink.get_context_for_question.
    by rewrite Hsearch, result_bind_Ok, Hcontext.
  - intros self question top_k w Hsearch.
    unfold App.get_context_for_question.
    destruct (App.search_similar_chunks self question top_k w) as [r w1].
    cbn [fst] in *. rewrite Hsearch, result_bind_Ok. cbn [reraise].
    by rewrite <-Hcontext.
Qed.
End Context_tags.

(** ** Orchestration *)

Section Orchestration.
Context {world : World} {numpy : Numpy}.
Import QA.

Lemma answer_question_appends self top_k st question :
  answer_question self top_k st question
  = (st.1 ++ [(answer_step self top_k st.2 question).1],
     (answer_step self top_k st.2 question).2).
Proof.
  unfold answer_question, answer_step.
  destruct (App.get_context_for_question _ _ _ _) as [[ctx|msg] w1];
    cbn [fst snd]; [|done].
  by destruct (_generate_answer question ctx w1).
Qed.

Lemma generation_failure question ctx w :
  (generate_content (prompt_of question ctx) w).1 = None →
  (_generate_answer question ctx w).1 = not_found.
Proof.
  unfold _generate_answer.
  destruct (generate_content _ _) as [[text|] w1]; [done|]. done.
Qed.

(** C1.  When the document is acquired and chunked, the request completes
    with one answer per question, in order.  The answer at position [i] is
    generated from question [i] and the context retrieved for it, in the
    world left by the questions before it; it is the not-found sentinel
    when retrieval raises or the generative call raises. *)
Theorem answers_correspond_to_questions self top_k request w new_chunks w1 :
  PDFProcessor.process_pdf (pdf_processor self) (documents request) w
    = (Ok new_chunks, w1) →
  let built :=
    App.create_vector_index (embedding_service self) new_chunks w1 in
  let indexed := set_index self built.1.2 in
  let loop := fold_left (answer_question indexed top_k) in
  ∃ answers,
    process_qa_request self top_k request w
      = (Ok {| answers := answers |},
         set_index indexed (App.clear_index built.1.2),
         (loop (questions request) ([], built.2)).2)
    ∧ length answers = length (questions request)
    ∧ ∀ i question, questions request !! i = Some question →
        let before := (loop (take i (questions request)) ([], built.2)).2 in
        let context :=
          App.get_context_for_question (embedding_service indexed) question
                                       top_k before in
        (∀ ctx, context.1 = Ok ctx →
           answers !! i = Some (_generate_answer question ctx context.2).1)
        ∧ ((∃ msg, context.1 = Raise msg) → answers !! i = Some not_found)
        ∧ (∀ ctx, context.1 = Ok ctx →
             (generate_content (prompt_of question ctx) context.2).1 = None →
             answers !! i = Some not_found).
Proof.
  intros Hpdf built indexed loop.
  destruct (appending_loop _ _ (answer_question_appends indexed top_k)
              (questions request) ([], built.2)) as (answers & Hans & Hlen & Hlook).
  exists answers. split_and!; [|done|].
  - unfold process_qa_request. rewrite Hpdf.
    subst loop indexed built. rewrite create_vector_index_eq in *.
    cbn [fst snd] in *.
    destruct (fold_left _ (questions request) _) as [answers' w3].
    cbn [fst snd app] in *. by subst answers'.
  - intros i question Hi before context.
    specialize (Hlook i question Hi). fold loop before in Hlook.
    unfold answer_step in Hlook. fold context in Hlook.
    split_and!.
    + intros ctx Hctx. by rewrite Hctx in Hlook.
    + intros [msg Hmsg]. by rewrite Hmsg in Hlook.
    + intros ctx Hctx Hgen. rewrite Hctx in Hlook.
      by rewrite generation_failure in Hlook.
Qed.

(** C8.  Whatever the outcome of [process_qa_request], a response or an
    exception, the index of the service it leaves behind has no chunk and
    no embedding. *)
Theorem index_cleared_on_every_exit self top_k request w :
  let out := process_qa_request self top_k request w in
  App.chunks (embedding_service out.1.2) = []
  ∧ App.embeddings (embedding_service out.1.2) = [].
Proof.
  unfold process_qa_request.
  destruct (PDFProcessor.process_pdf _ _ _) as [[new_chunks|msg] w1]; [|done].
  rewrite create_vector_index_eq.
  by destruct (fold_left _ (questions request) _).
Qed.
End Orchestration.

(** ** The properties on concrete inputs *)

Section Concrete.
Local Existing Instance Scripted.World_instance.
Local Existing Instance Scripted.Numpy_instance.


Lemma chunking_scenario_witness :
  let words1 := Py.split (PDFProcessor._clean_text Demo.page_500) in
  let words3 := Py.split (PDFProcessor._clean_text Demo.page_450) in
  PDFProcessor.extract_text_from_pdf Demo.long_document
  = Ok [(PDFProcessor._clean_text Demo.page_500, 1%Z);
        (PDFProcessor._clean_text Demo.page_450, 3%Z)]
  ∧ PDFProcessor.chunk_text (PDFProcessor.new settings)
      [(PDFProcessor._clean_text Demo.page_500, 1%Z);
       (PDFProcessor._clean_text Demo.page_450, 3%Z)]
    = Ok [mk_chunk (Py.join " " (Py.slice words1 0 400)) 0 1;
          mk_chunk (Py.join " " (Py.slice words1 350 500)) 1 1;
          mk_chunk (Py.join " " (Py.slice words3 0 400)) 2 3;
          mk_chunk (Py.join " " (Py.slice words3 350 450)) 3 3]
  ∧ length (Py.slice words1 0 400) = 400%nat
  ∧ length (Py.slice words1 350 500) = 150%nat
  ∧ length (Py.slice words3 0 400) = 400%nat
  ∧ length (Py.slice words3 350 450) = 100%nat.
Proof.
  apply (chunking_scenario_500_0_450 Demo.long_document
           Demo.page_500 Demo.blank_page Demo.page_450);
    vm_compute; reflexivity.
Defined.

Lemma pipeline_chunks_witness :
  ∃ pdf pages,
    download_pdf "https://example.org/doc.pdf" Demo.world
      = (Ok pdf, Demo.world)
    ∧ page_texts pdf = Ok pages
    ∧ Forall (λ c, ∃ (n : Z) raw,
                page_number c = Some n
                ∧ (1 ≤ n)%Z
                ∧ pages !! Z.to_nat (n - 1) = Some raw
                ∧ window_of (PDFProcessor.new settings)
                            (PDFProcessor._clean_text raw, n) c
                ∧ HealthLink.page_info c = "[Page " +:+ pretty n +:+ "]"
                ∧ HealthLink.page_info c ≠ "[Unknown Page]")
             Demo.short_chunks.
Proof.
  apply (pipeline_chunks_carry_page_number (PDFProcessor.new settings)
           "https://example.org/doc.pdf" Demo.world).
  vm_compute. reflexivity.
Defined.

Lemma keyword_top_k_witness :
  ∃ positive rest result,
    HealthLink.search_similar_chunks Demo.keyword_index "dog cat" 5
      = Ok result
    ∧ result = take (Z.to_nat 5) (positive ++ rest)
    ∧ positive ≡ₚ filter (λ c, 0 < overlap "dog cat" c)%nat
                         Demo.animal_chunks
    ∧ StronglySorted (ranks_before "dog cat") positive
    ∧ rest = filter (λ c, ¬ (0 < overlap "dog cat" c)%nat)
                    Demo.animal_chunks
    ∧ StronglySorted id_lt rest
    ∧ length result = (Z.to_nat 5 `min` length Demo.animal_chunks)%nat
    ∧ NoDup (map chunk_id result)
    ∧ result ⊆ Demo.animal_chunks.
Proof.
  apply (keyword_top_k Demo.keyword_index "dog cat" 5).
  - discriminate.
  - simpl. repeat constructor.
  - lia.
Defined.

(** A negative [top_k] is sliced as Python slices it: [l[:-1]] twice. *)
Example negative_top_k :
  HealthLink.search_similar_chunks Demo.keyword_index "dog cat" (-1)
  = Ok [mk_chunk "The Dog and the cat" 2 2].
Proof. vm_compute. reflexivity. Qed.

Lemma keyword_paths_agree_witness :
  App.search_similar_chunks Demo.fallback_index "dog cat" 5 Demo.world
  = (HealthLink.search_similar_chunks Demo.keyword_index "dog cat" 5,
     Demo.world).
Proof.
  apply (keyword_paths_agree Demo.fallback_index "dog cat" 5 Demo.world).
  - discriminate.
  - reflexivity.
Defined.

Lemma answers_correspond_witness :
  let built :=
    App.create_vector_index (QA.embedding_service Demo.service)
                            Demo.short_chunks Demo.world in
  let indexed := QA.set_index Demo.service built.1.2 in
  let loop := fold_left (QA.answer_question indexed 5) in
  ∃ answers,
    QA.process_qa_request Demo.service 5 Demo.request Demo.world
      = (Ok {| answers := answers |},
         QA.set_index indexed (App.clear_index built.1.2),
         (loop (questions Demo.request) ([], built.2)).2)
    ∧ length answers = length (questions Demo.request)
    ∧ ∀ i question, questions Demo.request !! i = Some question →
        let before := (loop (take i (questions Demo.request))
                            ([], built.2)).2 in
        let context :=
          App.get_context_for_question (QA.embedding_service indexed)
                                       question 5 before in
        (∀ ctx, context.1 = Ok ctx →
           answers !! i
           = Some (QA._generate_answer question ctx context.2).1)
        ∧ ((∃ msg, context.1 = Raise msg) →
             answers !! i = Some QA.not_found)
        ∧ (∀ ctx, context.1 = Ok ctx →
             (generate_content (QA.prompt_of question ctx) context.2).1
               = None →
             answers !! i = Some QA.not_found).
Proof.
  apply (answers_correspond_to_questions Demo.service 5 Demo.request
           Demo.world Demo.short_chunks Demo.world).
  vm_compute. reflexivity.
Defined.

(** The scenario of a generative call that fails for question 2 of 3. *)
Example generation_fails_for_second_question :
  (QA.process_qa_request Demo.service 5 Demo.request Demo.world).1.1
  = Ok {| answers := ["yes"; "Not found in document"; "no"] |}.
Proof. vm_compute. reflexivity. Qed.

(** C2 fails.  The provider embeds the first of two chunks and fails on
    the second: the built index holds the normalized vector of the first
    and the zero placeholder for the second, so it is neither fully
    embedded nor in keyword mode. *)
Lemma partially_semantic_index :
  let built :=
    (App.create_vector_index Demo.fresh_index Demo.short_chunks
                             Demo.world).1.2 in
  App.embeddings built = [[3 / 5; 4 / 5]%float; App.zero_vector]
  ∧ ¬ consistent built.
Proof.
  intros built.
  assert (App.embeddings built = [[3 / 5; 4 / 5]%float; App.zero_vector])
    as Hemb by (vm_compute; reflexivity).
  split; [done|]. unfold consistent. rewrite Hemb.
  intros [[_ Hall]|Hnil]; [|done].
  apply Forall_cons in Hall as [_ Hall].
  apply Forall_cons in Hall as [Hzero _]. done.
Qed.

(** C3 fails.  Neither index raises when it is built on the empty list. *)
Lemma empty_build_does_not_raise :
  ¬ (∃ msg, (HealthLink.create_vector_index Demo.keyword_index []).1
            = Raise msg)
  ∧ ¬ (∃ msg, (App.create_vector_index Demo.fresh_index []
                                        Demo.world).1.1
              = Raise msg).
Proof. split; intros [msg Hmsg]; discriminate. Qed.

Lemma context_assembly_witness :
  let retrieved :=
    [mk_chunk "x y z" 1 3;
     {| content := "loose"; chunk_id := 2; page_number := None;
        embedding := None |};
     mk_chunk "a b c" 0 1] in
  let context :=
    "[Page 3] x y z" +:+ HealthLink.newline +:+ HealthLink.newline
    +:+ "[Unknown Page] loose" +:+ HealthLink.newline +:+ HealthLink.newline
    +:+ "[Page 1] a b c" in
  HealthLink.assemble_context retrieved = context
  ∧ App.assemble_context retrieved = context
  ∧ (∀ self question top_k,
       HealthLink.search_similar_chunks self question top_k = Ok retrieved →
       HealthLink.get_context_for_question self question top_k = Ok context)
  ∧ (∀ self question top_k w,
       (App.search_similar_chunks self question top_k w).1 = Ok retrieved →
       (App.get_context_for_question self question top_k w).1 = Ok context).
Proof.
  apply (context_assembly_tags_pages
           [mk_chunk "x y z" 1 3;
            {| content := "loose"; chunk_id := 2; page_number := None;
               embedding := None |};
            mk_chunk "a b c" 0 1]).
  repeat constructor; discriminate.
Defined.
End Concrete.

(** * Further properties of the code *)

(** * Further properties *)

(** ** Strings *)

Section Strings.

Lemma app_cons a s t : String a s +:+ t = String a (s +:+ t).
Proof. done. Qed.

Lemma app_empty_r s : s +:+ EmptyString = s.
Proof. induction s as [|a s IH]; [done|]. by rewrite app_cons, IH. Qed.

Lemma app_assoc_str s t u : (s +:+ t) +:+ u = s +:+ (t +:+ u).
Proof. induction s as [|a s IH]; [done|]. by rewrite !app_cons, IH. Qed.

Lemma rev_app_spec s t : String.rev_app s t = String.rev s +:+ t.
Proof.
  unfold String.rev. revert t. induction s as [|a s IH]; intros t; simpl; [done|].
  rewrite (IH (String a t)), (IH (String a EmptyString)), app_assoc_str.
  done.
Qed.

Lemma rev_cons a s : String.rev (String a s) = String.rev s +:+ String a EmptyString.
Proof. unfold String.rev at 1. simpl. apply rev_app_spec. Qed.

Lemma rev_app_distr s t : String.rev (s +:+ t) = String.rev t +:+ String.rev s.
Proof.
  induction s as [|a s IH].
  - by rewrite app_empty_r.
  - by rewrite app_cons, !rev_cons, IH, app_assoc_str.
Qed.

Lemma rev_involutive_str s : String.rev (String.rev s) = s.
Proof.
  induction s as [|a s IH]; [done|].
  by rewrite rev_cons, rev_app_distr, IH.
Qed.

(** A string that [lstrip] leaves alone: empty, or starting with a
    character that is no white space. *)
Lemma lstrip_fixed s : Py.lstrip (Py.lstrip s) = Py.lstrip s.
Proof.
  induction s as [|a s IH]; simpl; [done|].
  destruct (Py.isspace a) eqn:Ha; [done|]. simpl. by rewrite Ha.
Qed.

Lemma lstrip_keeps_last s a t :
  Py.isspace a = false →
  ∃ s', Py.lstrip (s +:+ String a t) = s' +:+ String a t.
Proof.
  intros Ha. induction s as [|b s [s' IH]].
  - exists EmptyString. simpl. by rewrite Ha.
  - rewrite app_cons. simpl. destruct (Py.isspace b).
    + by exists s'.
    + by exists (String b s).
Qed.

Lemma rstrip_keeps_first a s :
  Py.isspace a = false →
  ∃ s', Py.rstrip (String a s) = String a s'.
Proof.
  intros Ha. unfold Py.rstrip. rewrite rev_cons.
  destruct (lstrip_keeps_last (String.rev s) a EmptyString Ha) as [s' ->].
  exists (String.rev s'). by rewrite rev_app_distr.
Qed.

Lemma rstrip_fixed s : Py.rstrip (Py.rstrip s) = Py.rstrip s.
Proof.
  unfold Py.rstrip. by rewrite rev_involutive_str, lstrip_fixed.
Qed.

(** [strip] is idempotent. *)
Lemma strip_strip s : Py.strip (Py.strip s) = Py.strip s.
Proof.
  unfold Py.strip.
  destruct (Py.lstrip s) as [|a t] eqn:Hs; [done|].
  assert (Py.isspace a = false) as Ha.
  { clear -Hs. induction s as [|b s IH]; simpl in Hs; [done|].
    destruct (Py.isspace b) eqn:Hb; [auto|]. by injection Hs as <- _. }
  destruct (rstrip_keeps_first a t Ha) as [t' Ht].
  rewrite Ht at 1. simpl. rewrite Ha, <-Ht. apply rstrip_fixed.
Qed.
End Strings.

(** ** Words: [split] and [join] *)

Section Words.

Lemma chars_all_app P s t : chars_all P (s +:+ t) ↔ chars_all P s ∧ chars_all P t.
Proof.
  induction s as [|a s IH]; [simpl; tauto|].
  rewrite app_cons. simpl. rewrite IH. tauto.
Qed.

Lemma chars_all_rev P s : chars_all P (String.rev s) ↔ chars_all P s.
Proof.
  induction s as [|a s IH]; [done|].
  rewrite rev_cons, chars_all_app, IH. simpl. tauto.
Qed.

Lemma rev_not_empty s : s ≠ EmptyString → String.rev s ≠ EmptyString.
Proof.
  destruct s as [|a s]; [done|]. intros _. rewrite rev_cons.
  by destruct (String.rev s).
Qed.

Lemma is_word_rev w : is_word w → is_word (String.rev w).
Proof. intros [? ?]. split; [by apply rev_not_empty|by apply chars_all_rev]. Qed.

(** The words [split] returns are words, made of characters of the text. *)
Lemma split_go_words P cur s :
  chars_all P cur → chars_all (λ a, Py.isspace a = false) cur →
  chars_all P s →
  Forall (λ w, is_word w ∧ chars_all P w) (Py.split_go cur s).
Proof.
  revert cur. induction s as [|a s IH]; intros cur HP Hcur Hs; simpl.
  - destruct cur as [|b cur]; [constructor|].
    repeat constructor; [by apply rev_not_empty| |]; by apply chars_all_rev.
  - destruct Hs as [Ha Hs]. destruct (Py.isspace a) eqn:Hspace.
    + destruct cur as [|b cur]; [by apply IH|].
      constructor; [|by apply IH].
      repeat split; [by apply rev_not_empty| |]; by apply chars_all_rev.
    + apply IH; simpl; auto.
Qed.

Lemma split_words P s :
  chars_all P s → Forall (λ w, is_word w ∧ chars_all P w) (Py.split s).
Proof. intros. by apply split_go_words. Qed.

Lemma split_go_word cur w s :
  chars_all (λ a, Py.isspace a = false) w →
  Py.split_go cur (w +:+ s) = Py.split_go (String.rev_app w cur) s.
Proof.
  revert cur. induction w as [|a w IH]; intros cur; [done|].
  intros [Ha Hw]. rewrite app_cons. simpl. rewrite Ha. by apply IH.
Qed.

Lemma split_go_end cur :
  cur ≠ EmptyString → Py.split_go cur EmptyString = [String.rev cur].
Proof. by destruct cur. Qed.

Lemma split_go_space cur s :
  cur ≠ EmptyString →
  Py.split_go cur (String " "%char s)
  = String.rev cur :: Py.split_go EmptyString s.
Proof. by destruct cur. Qed.

(** Splitting the words joined by one space gives the words back. *)
Lemma split_join ws : Forall is_word ws → Py.split (Py.join " " ws) = ws.
Proof.
  unfold Py.split. induction 1 as [|w ws [Hne Hw] Hws IH]; [done|].
  cbn [Py.join]. destruct ws as [|w' ws].
  - rewrite <-(app_empty_r w) at 1. rewrite split_go_word by done.
    rewrite split_go_end by by apply rev_not_empty.
    change (String.rev_app w EmptyString) with (String.rev w).
    by rewrite rev_involutive_str.
  - rewrite split_go_word by done.
    change (" " +:+ ?s) with (String " "%char s).
    rewrite split_go_space by by apply rev_not_empty.
    change (String.rev_app w EmptyString) with (String.rev w).
    rewrite rev_involutive_str. f_equal. apply IH.
Qed.

Lemma starts_with_word w s :
  is_word w → ∃ a t, w +:+ s = String a t ∧ Py.isspace a = false.
Proof. intros [Hne Hw]. destruct w as [|a w]; [done|]. destruct Hw. by eexists _, _. Qed.

Lemma lstrip_word w s : is_word w → Py.lstrip (w +:+ s) = w +:+ s.
Proof.
  intros (a & t & -> & Ha)%(starts_with_word w s). simpl. by rewrite Ha.
Qed.

Lemma join_not_empty w ws : is_word w → Py.join " " (w :: ws) ≠ EmptyString.
Proof.
  intros [Hne _]. cbn [Py.join]. destruct ws; [done|].
  destruct w; [done|]. by rewrite app_cons.
Qed.

Lemma rev_join_starts ws :
  Forall is_word ws → ws ≠ [] →
  ∃ w s, is_word w ∧ String.rev (Py.join " " ws) = w +:+ s.
Proof.
  induction 1 as [|w ws Hw Hws IH]; [done|]. intros _.
  cbn [Py.join]. destruct ws as [|w' ws].
  - exists (String.rev w), EmptyString.
    split; [by apply is_word_rev|by rewrite app_empty_r].
  - destruct IH as (v & s & Hv & Hrev); [done|].
    rewrite !rev_app_distr, Hrev. exists v. eexists.
    split; [done|]. by rewrite !app_assoc_str.
Qed.

(** Words joined by one space have no white space to strip. *)
Lemma strip_join ws : Forall is_word ws → Py.strip (Py.join " " ws) = Py.join " " ws.
Proof.
  intros Hws. destruct ws as [|w ws]; [done|].
  unfold Py.strip, Py.rstrip.
  assert (Py.lstrip (Py.join " " (w :: ws)) = Py.join " " (w :: ws)) as ->.
  { apply Forall_cons in Hws as [Hw _]. cbn [Py.join].
    destruct ws; [|by apply lstrip_word].
    rewrite <-(app_empty_r w). by apply lstrip_word. }
  destruct (rev_join_starts (w :: ws)) as (v & s & Hv & Hrev); [done..|].
  rewrite Hrev, lstrip_word, <-Hrev by done.
  apply rev_involutive_str.
Qed.
End Words.

(** ** Request validation, authentication, generated answers *)

Section Validation.
Import Schemas.

Lemma check_question_ok i question :
  check_question () (i, question) = Ok ()
  ↔ (3 ≤ String.length (Py.strip question))%nat.
Proof.
  unfold check_question.
  destruct question as [|a s]; [simpl; split; [done|lia]|].
  destruct (Py.strip (String a s)) as [|b t]; [simpl; split; [done|lia]|].
  destruct (Nat.ltb_spec (String.length (String b t)) 3); split; done || lia.
Qed.

Lemma check_questions_ok k l :
  for_each check_question (zip (seq k (length l)) l) () = Ok ()
  ↔ Forall (λ q, 3 ≤ String.length (Py.strip q))%nat l.
Proof.
  revert k. induction l as [|q l IH]; intros k; cbn [length seq zip zip_with for_each].
  { split; [constructor|done]. }
  rewrite Forall_cons, <-(IH (S k)), <-(check_question_ok k).
  destruct (check_question () (k, q)) as [[]|msg].
  - rewrite result_bind_Ok. split; [done|by intros [_ ?]].
  - split; [done|by intros [? _]].
Qed.

Lemma validate_questions_Ok v r :
  validate_questions v = Ok r →
  r = map Py.strip v
  ∧ (1 ≤ length v ≤ 10)%nat
  ∧ Forall (λ q, 3 ≤ String.length (Py.strip q))%nat v.
Proof.
  unfold validate_questions. destruct v as [|q v]; [done|].
  destruct (Nat.ltb_spec 10 (length (q :: v))) as [Hlong|Hshort]; [done|].
  pose proof (check_questions_ok 0 (q :: v)) as Hloop.
  destruct (for_each check_question _ ()) as [[]|msg]; [|done].
  rewrite result_bind_Ok.
  intros [= <-]. split_and!; [done|simpl; lia|done|by apply Hloop].
Qed.

Lemma validate_questions_good v :
  (1 ≤ length v ≤ 10)%nat →
  Forall (λ q, 3 ≤ String.length (Py.strip q))%nat v →
  validate_questions v = Ok (map Py.strip v).
Proof.
  unfold validate_questions. destruct v as [|q v]; [simpl; lia|].
  intros Hlen Hall.
  destruct (Nat.ltb_spec 10 (length (q :: v))) as [Hlong|Hshort]; [lia|].
  pose proof (check_questions_ok 0 (q :: v)) as Hloop.
  destruct (for_each check_question _ ()) as [[]|msg]; [done|].
  by apply Hloop in Hall.
Qed.

(** X1.  [validate_questions] accepts a list exactly when it has from 1 to
    10 questions, each of at least 3 characters once stripped, and it
    returns the stripped questions in order. *)
Theorem validate_questions_accepts v r :
  validate_questions v = Ok r
  ↔ r = map Py.strip v
    ∧ (1 ≤ length v ≤ 10)%nat
    ∧ Forall (λ q, 3 ≤ String.length (Py.strip q))%nat v.
Proof.
  split; [apply validate_questions_Ok|].
  intros (-> & Hlen & Hall). by apply validate_questions_good.
Qed.

(** X2.  An accepted list of questions, validated again, is accepted
    unchanged. *)
Theorem validate_questions_idempotent v r :
  validate_questions v = Ok r → validate_questions r = Ok r.
Proof.
  intros (-> & Hlen & Hall)%validate_questions_Ok.
  rewrite validate_questions_good.
  - f_equal. rewrite <-list_fmap_compose. apply list_fmap_ext.
    intros _ q _. simpl. by rewrite strip_strip.
  - rewrite length_map. lia.
  - apply Forall_fmap. eapply Forall_impl; [done|]. simpl. intros q ?.
    by rewrite strip_strip.
Qed.
End Validation.

Section Authentication.
Import Auth.

(** X3.  [verify_token] returns the token exactly when it is not empty and
    equal to the configured secret; every refusal is a 401 with the one
    detail ["Authorization token verification failed"], the two specific
    details raised inside the [try] block being caught there. *)
Theorem verify_token_outcomes secret_api_key token :
  (∀ t, verify_token secret_api_key token = inr t
        ↔ t = token ∧ token = secret_api_key ∧ token ≠ EmptyString)
  ∧ (∀ e, verify_token secret_api_key token = inl e
          ↔ (token = EmptyString ∨ token ≠ secret_api_key)
            ∧ e = {| status_code := 401;
                     detail := "Authorization token verification failed" |}).
Proof.
  unfold verify_token, check_token. destruct token as [|a s].
  { split; [intros t|intros e]; split; try done.
    - by intros (_ & _ & ?).
    - intros [= <-]. auto.
    - by intros [_ ->]. }
  destruct (String.eqb_spec (String a s) secret_api_key) as [<-|Hne]; simpl.
  - split; [intros t|intros e]; split; try done.
    + by intros [= <-].
    + by intros (-> & _).
    + intros [[?|?] _]; done.
  - split; [intros t|intros e]; split; try done.
    + by intros (_ & ? & _).
    + intros [= <-]. auto.
    + by intros [_ ->].
Qed.
End Authentication.

Section Answers.
Context {world : World} {numpy : Numpy}.
Import QA.

(** X4.  Whatever the generative model does, the answer has no leading and
    no trailing white space. *)
Theorem generated_answer_is_trimmed question context w :
  Py.strip (_generate_answer question context w).1
  = (_generate_answer question context w).1.
Proof.
  unfold _generate_answer.
  destruct (generate_content _ w) as [[text|] w1]; [|done].
  destruct (negb (Py.truthy_str text)); [done|]. cbn [fst].
  destruct (Py.startswith _ _); apply strip_strip.
Qed.
End Answers.

(** ** Download *)

Section Download.
Context {http : Transport.Http}.
Import Transport.

Lemma receive_all_ok max chunks st st' :
  receive_all max chunks st = inr st' →
  st'.1 = st.1 ++ concat chunks
  ∧ st'.2 = (st.2 + Z.of_nat (length (concat chunks)))%Z
  ∧ ((st.2 ≤ max)%Z → (st'.2 ≤ max)%Z).
Proof.
  revert st. induction chunks as [|chunk chunks IH]; intros st; simpl.
  { intros [= <-]. rewrite app_nil_r. split_and!; [done|lia|done]. }
  unfold receive at 1. destruct chunk as [|b chunk].
  { intros (-> & -> & ?)%IH. done. }
  destruct (Z.ltb_spec max (st.2 + Z.of_nat (length (b :: chunk)))); [done|].
  intros (-> & -> & Hmax)%IH. cbn [fst snd] in *.
  rewrite <-app_assoc, length_app. split_and!; [done|lia|auto].
Qed.

Lemma receive_all_fits max chunks st :
  (st.2 + Z.of_nat (length (concat chunks)) ≤ max)%Z →
  ∃ st', receive_all max chunks st = inr st'.
Proof.
  revert st. induction chunks as [|chunk chunks IH]; intros st; simpl.
  { by eexists. }
  rewrite length_app. intros Hfit. unfold receive at 1.
  destruct chunk as [|b chunk]; [by apply IH|].
  destruct (Z.ltb_spec max (st.2 + Z.of_nat (length (b :: chunk)))); [lia|].
  apply IH. cbn [snd]. lia.
Qed.

Lemma receive_all_overflows max chunks st :
  (max < st.2 + Z.of_nat (length (concat chunks)))%Z → (st.2 ≤ max)%Z →
  ∃ n, (max < n)%Z
       ∧ receive_all max chunks st
         = inl (OtherException
                  ("File too large: " +:+ pretty n +:+ " bytes")).
Proof.
  revert st. induction chunks as [|chunk chunks IH]; intros st; simpl.
  { lia. }
  rewrite length_app. intros Hbig Hst. unfold receive at 1.
  destruct chunk as [|b chunk]; [by apply IH|].
  destruct (Z.ltb_spec max (st.2 + Z.of_nat (length (b :: chunk)))).
  - by eexists.
  - apply IH; cbn [snd]; lia.
Qed.

(** X5.  A download that returns has read the whole body of a response with
    a success status over a connection that did not break, and returns no
    more than [max_file_size] bytes. *)
Theorem download_within_limit max_file_size url w pdf_content w' :
  (0 ≤ max_file_size)%Z →
  download_pdf max_file_size url w = (Ok pdf_content, w') →
  ∃ response,
    requests_get url w = (inr response, w')
    ∧ status_error response = None
    ∧ stream_error response = None
    ∧ pdf_content = concat (body response)
    ∧ (Z.of_nat (length pdf_content) ≤ max_file_size)%Z.
Proof.
  intros Hmax. unfold download_pdf, fetch.
  destruct (requests_get url w) as [[msg|response] w1]; [done|].
  destruct (status_error response) eqn:Hstatus; [done|].
  destruct (check_declared max_file_size response) as [[]|[]]; [done..|].
  destruct (receive_all max_file_size (body response) ([], 0%Z))
    as [[]|st] eqn:Hrecv; [done..|].
  destruct (stream_error response) eqn:Hstream; [done|].
  intros [= <- <-]. exists response.
  apply receive_all_ok in Hrecv as (Hcontent & Hsize & Hle).
  cbn [fst snd app] in *. specialize (Hle Hmax).
  split_and!; [done..|]. rewrite Hcontent. lia.
Qed.

(** X6.  On a response with a success status, a declared length that passes
    the check and a connection that does not break, the download returns
    the whole body when it has at most [max_file_size] bytes, and raises
    ["Error downloading PDF: File too large: n bytes"], [n] over the limit,
    when it has more. *)
Theorem download_decided_by_size max_file_size url w response w' :
  requests_get url w = (inr response, w') →
  status_error response = None →
  stream_error response = None →
  check_declared max_file_size response = inr () →
  let total := Z.of_nat (length (concat (body response))) in
  ((total ≤ max_file_size)%Z →
   download_pdf max_file_size url w = (Ok (concat (body response)), w'))
  ∧ ((max_file_size < total)%Z → (0 ≤ max_file_size)%Z →
     ∃ n, (max_file_size < n)%Z
          ∧ download_pdf max_file_size url w
            = (Raise ("Error downloading PDF: File too large: "
                      +:+ pretty n +:+ " bytes"), w')).
Proof.
  intros Hget Hstatus Hstream Hdeclared total.
  unfold download_pdf, fetch. rewrite Hget, Hstatus, Hdeclared. split.
  - intros Hfit.
    destruct (receive_all_fits max_file_size (body response) ([], 0%Z))
      as [st Hst]; [cbn [snd]; lia|].
    rewrite Hst, Hstream.
    by apply receive_all_ok in Hst as (-> & _).
  - intros Hbig Hmax.
    destruct (receive_all_overflows max_file_size (body response) ([], 0%Z))
      as (n & Hn & ->); [cbn [snd]; lia|done|].
    by exists n.
Qed.

(** X7.  A declared length over the limit ends the download before the body
    is read: whatever the body, the error names the declared length. *)
Theorem download_refuses_declared_oversize max_file_size url w response w'
    declared n :
  requests_get url w = (inr response, w') →
  status_error response = None →
  content_length response = Some declared →
  declared ≠ EmptyString →
  int_of_str declared = Ok n →
  (max_file_size < n)%Z →
  download_pdf max_file_size url w
  = (Raise ("Error downloading PDF: File too large: " +:+ declared
            +:+ " bytes"), w').
Proof.
  intros Hget Hstatus Hlen Hne Hint Hbig.
  unfold download_pdf, fetch, check_declared.
  rewrite Hget, Hstatus, Hlen, Hint. destruct declared; [done|].
  by destruct (Z.ltb_spec max_file_size n); [|lia].
Qed.
End Download.

(** ** Retrieval: fallbacks and the size of the result *)

Section Any_sort.
Context {A K : Type} (ltb : K → K → bool) (key : A → K).

Lemma insert_desc_perm_any x l : Py.insert_desc ltb key x l ≡ₚ x :: l.
Proof.
  induction l as [|y l IH]; simpl; [done|].
  destruct (ltb (key x) (key y)); [|done].
  rewrite IH. apply Permutation_swap.
Qed.

Lemma sort_desc_perm_any l : Py.sort_desc ltb key l ≡ₚ l.
Proof.
  induction l as [|x l IH]; simpl; [done|].
  by rewrite insert_desc_perm_any, IH.
Qed.
End Any_sort.

Section Retrieval.
Context {world : World} {numpy : Numpy}.
Import App.

Lemma keyword_search_eq self query top_k :
  chunks self ≠ [] →
  HealthLink.search_similar_chunks {| HealthLink.chunks := chunks self |}
                                   query top_k
  = Ok (keyword_search self query top_k).
Proof.
  intros Hne. unfold HealthLink.search_similar_chunks, keyword_search.
  cbn [HealthLink.chunks]. by destruct (chunks self).
Qed.

(** The search on a built index: the semantic result if the semantic
    branch returns, the keyword result otherwise. *)
Lemma search_built self query top_k w :
  chunks self ≠ [] →
  search_similar_chunks self query top_k w
  = match embeddings self with
    | [] => (Ok (keyword_search self query top_k), w)
    | _ =>
        if (length (embeddings self) =? length (chunks self))%nat
        then
          (match (semantic_search self query top_k w).1 with
           | Some similar_chunks => Ok similar_chunks
           | None => Ok (keyword_search self query top_k)
           end, (semantic_search self query top_k w).2)
        else (Ok (keyword_search self query top_k), w)
    end.
Proof.
  intros Hne. unfold search_similar_chunks.
  destruct (chunks self) as [|c l] eqn:Hchunks; [done|]. rewrite <-Hchunks.
  destruct (embeddings self) as [|e es]; [done|].
  destruct (length (e :: es) =? length (chunks self))%nat; [|done].
  by destruct (semantic_search self query top_k w) as [[similar|] w1].
Qed.

Lemma semantic_search_without_query_embedding self query top_k w :
  Py.truthy_list (_get_embedding self query "retrieval_query" w).1 = false →
  (semantic_search self query top_k w).1 = None.
Proof.
  unfold semantic_search.
  destruct (_get_embedding self query "retrieval_query" w) as [qe w1].
  cbn [fst]. by intros ->.
Qed.

(** X8.  When no embedding of the query is to be had (the provider raises or
    returns nothing, or there is no client), the search on a built index
    returns what the keyword search returns. *)
Theorem search_without_query_embedding_is_keyword self query top_k w :
  chunks self ≠ [] →
  Py.truthy_list (_get_embedding self query "retrieval_query" w).1 = false →
  (search_similar_chunks self query top_k w).1
  = HealthLink.search_similar_chunks {| HealthLink.chunks := chunks self |}
                                     query top_k.
Proof.
  intros Hne Hquery. rewrite search_built, keyword_search_eq by done.
  destruct (embeddings self); [done|].
  destruct (_ =? _)%nat; [|done]. cbn [fst].
  by rewrite semantic_search_without_query_embedding.
Qed.

Lemma fold_embed_without_client self l st :
  client self = false →
  fold_left (embed_chunk self) l st
  = (st.1 ++ replicate (length l) zero_vector, st.2).
Proof.
  intros Hclient. revert st. induction l as [|c l IH]; intros st; simpl.
  { rewrite app_nil_r. by destruct st. }
  rewrite IH. unfold embed_chunk, _get_embedding. rewrite Hclient.
  cbn [fst snd Py.truthy_list]. by rewrite <-app_assoc.
Qed.

(** X9.  A service without a client never calls the provider: building the
    index leaves the world as it is and stores a zero vector for every
    chunk, and every search on it is the keyword search. *)
Theorem service_without_client_is_keyword_only self new_chunks query top_k w :
  client self = false →
  new_chunks ≠ [] →
  let built := create_vector_index self new_chunks w in
  built.2 = w
  ∧ embeddings built.1.2 = replicate (length new_chunks) zero_vector
  ∧ search_similar_chunks built.1.2 query top_k w
    = (HealthLink.search_similar_chunks {| HealthLink.chunks := new_chunks |}
                                        query top_k, w).
Proof.
  intros Hclient Hne built. subst built.
  rewrite create_vector_index_eq, fold_embed_without_client by done.
  cbn [fst snd app embeddings]. split_and!; [done..|].
  match goal with |- search_similar_chunks ?i _ _ _ = _ => set (index := i) end.
  pose proof (keyword_search_eq index query top_k Hne) as Hkeyword.
  cbn [chunks index] in Hkeyword. rewrite Hkeyword, search_built by done.
  destruct (embeddings index); [done|].
  destruct (_ =? _)%nat; [|done].
  unfold semantic_search, _get_embedding. cbn [client index].
  by rewrite Hclient.
Qed.

Lemma similarities_mismatch self qn l acc :
  (∃ entry, entry ∈ l ∧ length entry.2 ≠ length qn) →
  for_each_opt (similarity_step self qn) l acc = None.
Proof.
  revert acc. induction l as [|entry l IH]; intros acc [bad [Hin Hbad]].
  { by apply elem_of_nil in Hin. }
  cbn [for_each_opt].
  destruct (similarity_step self qn acc entry) as [acc'|] eqn:Hstep;
    [|reflexivity].
  apply elem_of_cons in Hin as [Heq|Hin]; [|apply IH; eauto].
  subst bad. unfold similarity_step in Hstep.
  destruct (Nat.eqb_spec (length qn) (length entry.2)); [congruence|done].
Qed.

(** X10.  When one stored embedding has another length than the normalized
    embedding of the query, the semantic branch is given up ([np.dot]
    raises, the exception is caught) and the search returns what the
    keyword search returns. *)
Theorem search_on_dimension_mismatch_is_keyword self query top_k w e :
  chunks self ≠ [] →
  e ∈ embeddings self →
  length e
  ≠ length (np_normalize
              (default [] (_get_embedding self query "retrieval_query" w).1)) →
  (search_similar_chunks self query top_k w).1
  = HealthLink.search_similar_chunks {| HealthLink.chunks := chunks self |}
                                     query top_k.
Proof.
  intros Hne He Hlen. rewrite search_built, keyword_search_eq by done.
  destruct (embeddings self) as [|e0 es] eqn:Hemb; [done|].
  rewrite <-Hemb in He |- *.
  destruct (_ =? _)%nat; [|done]. cbn [fst].
  unfold semantic_search.
  destruct (_get_embedding self query "retrieval_query" w) as [qe w1].
  cbn [fst] in *. destruct (Py.truthy_list qe); [|done]. cbn [fst].
  rewrite similarities_mismatch; [done|].
  apply list_elem_of_lookup in He as [i Hi].
  exists (i, e). split; [|done].
  apply list_elem_of_lookup. exists i. apply lookup_zip_with_Some.
  exists i, e. split_and!; [done| |done].
  apply lookup_seq. split; [done|]. by apply lookup_lt_Some in Hi.
Qed.
End Retrieval.

Section Result_size.
Context {world : World} {numpy : Numpy}.
Import App.

Lemma similarities_chunks self qn es j acc sims :
  for_each_opt (similarity_step self qn) (zip (seq j (length es)) es) acc
    = Some sims →
  map fst sims = map fst acc ++ take (length es) (drop j (chunks self)).
Proof.
  revert j acc. induction es as [|e es IH]; intros j acc.
  { cbn. intros [= <-]. by rewrite app_nil_r. }
  cbn [length seq zip zip_with for_each_opt].
  destruct (similarity_step self qn acc (j, e)) as [acc'|] eqn:Hstep; [|done].
  change (Some acc' ≫= _) with
    (for_each_opt (similarity_step self qn) (zip (seq (S j) (length es)) es) acc').
  intros Hrest%IH. rewrite Hrest. unfold similarity_step in Hstep.
  cbn [fst snd] in Hstep. destruct (_ =? _)%nat; [|done].
  destruct (chunks self !! j) as [c|] eqn:Hc; [|done].
  injection Hstep as <-.
  rewrite map_app, <-app_assoc, (drop_S _ c j) by done. done.
Qed.

Lemma semantic_search_result self query top_k w similar :
  length (embeddings self) = length (chunks self) →
  (0 ≤ top_k)%Z →
  (semantic_search self query top_k w).1 = Some similar →
  ∃ ranked, ranked ≡ₚ chunks self ∧ similar = take (Z.to_nat top_k) ranked.
Proof.
  intros Hlen Hk. unfold semantic_search.
  destruct (_get_embedding self query "retrieval_query" w) as [qe w1].
  destruct (Py.truthy_list qe); [|done]. cbn [fst].
  destruct (for_each_opt _ _ []) as [sims|] eqn:Hsims; [|done].
  apply similarities_chunks in Hsims. rewrite Hlen, drop_0, take_ge in Hsims by done.
  cbn [map app] in Hsims. cbn. intros [= <-].
  exists (map fst (Py.sort_desc PrimFloat.ltb snd sims)). split.
  - rewrite <-Hsims. apply fmap_Permutation, sort_desc_perm_any.
  - by rewrite slice_to_nonneg, <-fmap_take by done.
Qed.

Lemma keyword_search_result self query top_k :
  (0 ≤ top_k)%Z →
  NoDup (map chunk_id (chunks self)) →
  ∃ ranked,
    ranked ≡ₚ chunks self
    ∧ keyword_search self query top_k = take (Z.to_nat top_k) ranked.
Proof.
  intros Hk Hnd.
  set (positive := Py.sort_desc Nat.ltb (overlap query)
                     (filter (λ c, 0 < overlap query c)%nat (chunks self))).
  set (rest := filter (λ c, ¬ (0 < overlap query c)%nat) (chunks self)).
  assert (positive ≡ₚ filter (λ c, 0 < overlap query c)%nat (chunks self))
    as Hperm by apply sort_desc_perm.
  exists (positive ++ rest). split.
  { rewrite Hperm. apply filter_app_complement. }
  unfold keyword_search.
  change (fold_left (score_chunk (word_set query)) (chunks self) [])
    with (fold_left (HealthLink.score_chunk (HealthLink.word_set query))
                    (chunks self) []).
  rewrite scored_chunks_spec, app_nil_l, sort_desc_decorated.
  fold positive. rewrite !slice_to_nonneg by done.
  rewrite <-fmap_take, map_fst_decorated.
  destruct (Z.ltb_spec (Z.of_nat (length (take (Z.to_nat top_k) positive)))
                       top_k) as [Hlt|Hge].
  - rewrite length_take in Hlt. rewrite (take_ge positive) by lia.
    change (fold_left (fill_slot ?u top_k)) with
      (fold_left (HealthLink.fill_slot u top_k)).
    rewrite fill_slots_spec, (unused_are_unscored query) by done.
    fold rest. apply take_app_take.
  - rewrite length_take in Hge.
    rewrite take_take, Nat.min_id, take_app_le by lia. done.
Qed.

(** X11.  On a built index whose chunk ids are distinct, and for a count
    [top_k >= 0], the search returns, by the semantic branch or by the
    keyword one, [min top_k (pool size)] chunks of the index, no two with
    the same [chunk_id]. *)
Theorem search_returns_distinct_chunks self query top_k w :
  chunks self ≠ [] →
  NoDup (map chunk_id (chunks self)) →
  (0 ≤ top_k)%Z →
  ∃ result,
    (search_similar_chunks self query top_k w).1 = Ok result
    ∧ length result = (Z.to_nat top_k `min` length (chunks self))%nat
    ∧ NoDup (map chunk_id result)
    ∧ result ⊆ chunks self.
Proof.
  intros Hne Hnd Hk.
  assert (∃ ranked, ranked ≡ₚ chunks self
            ∧ (search_similar_chunks self query top_k w).1
              = Ok (take (Z.to_nat top_k) ranked)) as (ranked & Hperm & ->).
  { rewrite search_built by done.
    destruct (keyword_search_result self query top_k Hk Hnd)
      as (ranked & Hperm & Hkeyword).
    destruct (embeddings self) as [|e es] eqn:Hemb; [by exists ranked; rewrite Hkeyword|].
    rewrite <-Hemb.
    destruct (Nat.eqb_spec (length (embeddings self)) (length (chunks self)))
      as [Hlen|_]; [|by exists ranked; rewrite Hkeyword].
    cbn [fst].
    destruct (semantic_search self query top_k w).1 as [similar|] eqn:Hsem;
      [|by exists ranked; rewrite Hkeyword].
    apply semantic_search_result in Hsem as (ranked' & ? & ->); [|done..].
    by exists ranked'. }
  eexists. split_and!; [done| | |].
  - by rewrite length_take, Hperm.
  - eapply sublist_NoDup; [|apply fmap_sublist, sublist_take].
    change (NoDup (chunk_id <$> ranked)). by rewrite Hperm.
  - etrans; [apply subseteq_take|]. by rewrite Hperm.
Qed.
End Result_size.

Section Context_never_empty.
Context {world : World} {numpy : Numpy}.
Import App.

Lemma take_not_nil {A} (l : list A) (k : Z) :
  (1 ≤ k)%Z → l ≠ [] → take (Z.to_nat k) l ≠ [].
Proof.
  intros Hk Hl. destruct l as [|x l]; [done|].
  by replace (Z.to_nat k) with (S (Z.to_nat k - 1)) by lia.
Qed.

Lemma filter_all {A} (P : A → Prop) `{!∀ x, Decision (P x)} (l : list A) :
  (∀ x, x ∈ l → P x) → filter P l = l.
Proof.
  induction l as [|x l IH]; intros Hall; [done|].
  rewrite filter_cons_True, IH; [done| |]; intros; apply Hall; by constructor.
Qed.

Lemma keyword_search_not_empty self query top_k :
  chunks self ≠ [] → (1 ≤ top_k)%Z → keyword_search self query top_k ≠ [].
Proof.
  intros Hne Hk. unfold keyword_search.
  change (fold_left (score_chunk (word_set query)) (chunks self) [])
    with (fold_left (HealthLink.score_chunk (HealthLink.word_set query))
                    (chunks self) []).
  rewrite scored_chunks_spec, app_nil_l, sort_desc_decorated.
  rewrite !slice_to_nonneg by lia.
  rewrite <-fmap_take, map_fst_decorated.
  set (positive := Py.sort_desc Nat.ltb (overlap query)
                     (filter (λ c, 0 < overlap query c)%nat (chunks self))).
  destruct (decide (positive = [])) as [Hnil|Hpos].
  - rewrite Hnil, take_nil. cbn [length map].
    destruct (Z.ltb_spec (Z.of_nat 0) top_k); [|lia].
    change (fold_left (fill_slot ?u top_k)) with
      (fold_left (HealthLink.fill_slot u top_k)).
    rewrite fill_slots_spec. cbn [app length list_to_set].
    rewrite filter_all, Nat.sub_0_r, take_take, Nat.min_id.
    + by apply take_not_nil.
    + intros c _. apply not_elem_of_empty.
  - pose proof (take_not_nil positive top_k Hk Hpos) as Htake.
    destruct (_ <? _)%Z.
    + change (fold_left (fill_slot ?u top_k)) with
        (fold_left (HealthLink.fill_slot u top_k)).
      rewrite fill_slots_spec.
      apply take_not_nil; [done|].
      by destruct (take (Z.to_nat top_k) positive).
    + by apply take_not_nil.
Qed.

Lemma page_info_bracket chunk : ∃ s, page_info chunk = String "["%char s.
Proof. unfold page_info. destruct (Py.truthy_int _); by eexists. Qed.

Lemma assemble_context_bracket similar :
  similar ≠ [] → ∃ s, assemble_context similar = String "["%char s.
Proof.
  destruct similar as [|c l]; [done|]. intros _. unfold assemble_context.
  change (fold_left ?f (c :: l) []) with (fold_left f l ([] ++ [page_info c +:+ " " +:+ content c])).
  cbn [app].
  assert (∀ l acc, ∃ rest,
            fold_left (λ parts chunk,
                         parts ++ [page_info chunk +:+ " " +:+ content chunk])
                      l acc = acc ++ rest) as Hparts.
  { clear. induction l as [|c l IH]; intros acc; simpl.
    - exists []. by rewrite app_nil_r.
    - destruct (IH (acc ++ [page_info c +:+ " " +:+ content c])) as [rest ->].
      eexists. by rewrite <-app_assoc. }
  destruct (Hparts l [page_info c +:+ " " +:+ content c]) as [rest ->].
  destruct (page_info_bracket c) as [s ->]. cbn [app Py.join].
  destruct rest; by eexists.
Qed.

(** X12.  On a built index and for a count [top_k >= 1], retrieval finds at
    least one chunk whatever the question (the keyword search pads with
    chunks that share no word with it), so the context handed to the model
    is a tagged chunk, never the no-context sentinel. *)
Theorem context_is_never_the_sentinel self question top_k w :
  chunks self ≠ [] →
  (1 ≤ top_k)%Z →
  ∃ similar_chunks,
    (search_similar_chunks self question top_k w).1 = Ok similar_chunks
    ∧ similar_chunks ≠ []
    ∧ (get_context_for_question self question top_k w).1
      = Ok (assemble_context similar_chunks)
    ∧ assemble_context similar_chunks
      ≠ "No relevant context found in the document.".
Proof.
  intros Hne Hk.
  assert (∃ similar, (search_similar_chunks self question top_k w).1 = Ok similar
                     ∧ similar ≠ []) as (similar & Hsearch & Hsimilar).
  { rewrite search_built by done.
    pose proof (keyword_search_not_empty self question top_k Hne Hk).
    destruct (embeddings self) as [|e es] eqn:Hemb; [by eexists|].
    rewrite <-Hemb.
    destruct (Nat.eqb_spec (length (embeddings self)) (length (chunks self)))
      as [Hlen|_]; [|by eexists].
    cbn [fst].
    destruct (semantic_search self question top_k w).1 as [similar|] eqn:Hsem;
      [|by eexists].
    apply semantic_search_result in Hsem as (ranked & Hperm & ->); [|done|lia].
    eexists. split; [done|]. apply take_not_nil; [done|].
    intros ->. by apply Permutation_nil_l in Hperm. }
  exists similar. split_and!; [done..| |].
  - unfold get_context_for_question.
    destruct (search_similar_chunks self question top_k w) as [r w1].
    cbn [fst] in *. by rewrite Hsearch.
  - destruct (assemble_context_bracket similar Hsimilar) as [s ->]. done.
Qed.
End Context_never_empty.

Section Case.

Lemma lower_char_lower_char a : Py.lower_char (Py.lower_char a) = Py.lower_char a.
Proof. by destruct a as [[] [] [] [] [] [] [] []]. Qed.

Lemma lower_lower s : Py.lower (Py.lower s) = Py.lower s.
Proof.
  induction s as [|a s IH]; [done|]. cbn [Py.lower].
  by rewrite lower_char_lower_char, IH.
Qed.

(** X13.  The keyword search does not see the case of the query: the query
    in lower case retrieves the same chunks in the same order. *)
Theorem keyword_search_ignores_case self query top_k :
  HealthLink.search_similar_chunks self (Py.lower query) top_k
  = HealthLink.search_similar_chunks self query top_k.
Proof.
  unfold HealthLink.search_similar_chunks, HealthLink.word_set.
  by rewrite lower_lower.
Qed.
End Case.

(** ** Chunking: what the chunks hold *)

Section Chunks.
Context {world : World}.
Import PDFProcessor.

Lemma chunk_windows_exact self words pn windows st :
  ∃ new,
    fold_left (chunk_window self words pn) windows st
      = (st.1 ++ new, (st.2 + Z.of_nat (length new))%Z)
    ∧ (λ c, (content c, page_number c)) <$> new
      = (λ i, (Py.join " " (Py.slice words i (i + chunk_size self)), Some pn))
          <$> filter (λ i, 10 ≤ length (Py.slice words i (i + chunk_size self)))%nat
                windows.
Proof.
  revert st. induction windows as [|i windows IH]; intros st.
  { exists []. cbn. rewrite app_nil_r, Z.add_0_r. by destruct st. }
  cbn [fold_left]. rewrite filter_cons. unfold chunk_window at 2.
  destruct (Nat.ltb_spec (length (Py.slice words i (i + chunk_size self))) 10).
  - rewrite decide_False by lia. apply IH.
  - rewrite decide_True by lia.
    match goal with |- context [fold_left _ _ (?a ++ [?c], ?b)] =>
      destruct (IH (a ++ [c], b)) as (new & -> & Hnew); exists (c :: new) end.
    cbn [fst snd]. split.
    + rewrite <-app_assoc. cbn [length app]. f_equal. lia.
    + by rewrite !fmap_cons, Hnew.
Qed.

Lemma chunk_pages_exact self pages st r :
  for_each (chunk_page self) pages st = Ok r →
  ∃ new,
    r.1 = st.1 ++ new
    ∧ (λ c, (content c, page_number c)) <$> new
      = concat ((λ page, chunk_of_window page <$> windows_of_page self page)
                <$> pages).
Proof.
  revert st. induction pages as [|page pages IH]; intros st.
  { cbn. intros [= <-]. exists []. by rewrite app_nil_r. }
  intros Hloop. cbn [for_each] in Hloop.
  destruct (chunk_page self st page) as [st1|] eqn:Hpage; [|done].
  rewrite result_bind_Ok in Hloop. unfold chunk_page in Hpage.
  destruct (Py.range 0 (Z.of_nat (length (Py.split page.1)))
              (chunk_size self - chunk_overlap self))
    as [windows|] eqn:Hrange; [|done].
  injection Hpage as <-.
  destruct (chunk_windows_exact self (Py.split page.1) page.2 windows st)
    as (new1 & Hnew1 & Hexact1).
  rewrite Hnew1 in Hloop. apply IH in Hloop as (new2 & -> & Hexact2).
  cbn [fst]. exists (new1 ++ new2). split; [by rewrite app_assoc|].
  rewrite fmap_cons, fmap_app, Hexact1, Hexact2. cbn [concat]. f_equal.
  unfold windows_of_page. rewrite Hrange. cbn [default].
  by rewrite <-list_fmap_compose.
Qed.

Lemma chunk_text_windows self text_pages chunks :
  chunk_text self text_pages = Ok chunks →
  (λ c, (content c, page_number c)) <$> chunks
  = concat ((λ page, chunk_of_window page <$> windows_of_page self page)
              <$> text_pages).
Proof.
  unfold chunk_text.
  destruct (for_each _ _ _) as [r|] eqn:Hloop; [|done].
  rewrite result_bind_Ok. cbn [reraise]. intros [= <-].
  by apply chunk_pages_exact in Hloop as (new & -> & ?).
Qed.

Lemma chunks_rebuilt (chunks : list DocumentChunk) :
  Forall (λ c, embedding c = None) chunks →
  chunks
  = zip_with numbered (map chunk_id chunks)
             ((λ c, (content c, page_number c)) <$> chunks).
Proof.
  induction 1 as [|c chunks Hc Hcs IH]; [done|].
  cbn [map fmap list_fmap zip_with]. f_equal; [|done].
  destruct c. cbn in Hc. by subst.
Qed.

(** X14.  [chunk_text] is determined by the windows it keeps: the chunks it
    returns are, page after page and in window order, the windows of the
    page that have at least 10 words, each joined by single spaces and
    tagged with the number of its page, numbered from 0 and without
    embedding. *)
Theorem chunk_text_is_the_kept_windows self text_pages chunks :
  chunk_text self text_pages = Ok chunks →
  let kept :=
    concat ((λ page, chunk_of_window page <$> windows_of_page self page)
              <$> text_pages) in
  chunks = zip_with numbered (seqZ 0 (Z.of_nat (length kept))) kept.
Proof.
  intros Hchunks kept.
  pose proof (chunk_text_windows _ _ _ Hchunks) as Hkept. fold kept in Hkept.
  apply chunk_text_spec in Hchunks as [Hids Hall].
  rewrite <-Hkept, length_fmap, <-Hids. apply chunks_rebuilt.
  eapply Forall_impl; [done|]. by intros c (page & _ & _ & ? & _).
Qed.
End Chunks.

Section Chunk_words.
Context {world : World}.
Import PDFProcessor.

Lemma elem_of_concat {A} (x : A) (ls : list (list A)) :
  x ∈ concat ls ↔ ∃ l, l ∈ ls ∧ x ∈ l.
Proof.
  induction ls as [|l ls IH]; cbn [concat].
  - split; [by intros ?%elem_of_nil|by intros (? & ?%elem_of_nil & _)].
  - rewrite elem_of_app, IH. split.
    + intros [?|(l' & ? & ?)]; [exists l|exists l']; split; try done;
        by constructor.
    + intros (l' & [->|?]%elem_of_cons & ?); [by left|right; eauto].
Qed.

(** Where a chunk comes from. *)
Lemma chunk_origin self text_pages chunks c :
  chunk_text self text_pages = Ok chunks → c ∈ chunks →
  ∃ page i,
    page ∈ text_pages
    ∧ (0 ≤ i)%Z
    ∧ page_number c = Some page.2
    ∧ content c
      = Py.join " " (Py.slice (Py.split page.1) i (i + chunk_size self))
    ∧ (10 ≤ length (Py.slice (Py.split page.1) i (i + chunk_size self)))%nat.
Proof.
  intros Hchunks%chunk_text_windows Hc.
  apply (list_elem_of_fmap_2 (λ c, (content c, page_number c))) in Hc.
  rewrite Hchunks in Hc.
  apply elem_of_concat in Hc as (l & Hl & Hc).
  apply list_elem_of_fmap in Hl as (page & -> & Hpage).
  apply list_elem_of_fmap in Hc as (window & Hc & Hwindow).
  unfold windows_of_page in Hwindow.
  apply list_elem_of_fmap in Hwindow as (i & -> & Hi).
  apply list_elem_of_filter in Hi as [Hlong Hi].
  injection Hc as Hcontent Hpn.
  exists page, i. split_and!; [done| |done..].
  destruct (Py.range 0 _ _) as [windows|] eqn:Hrange;
    [|by apply elem_of_nil in Hi].
  eapply range_nonneg; [|done..]. lia.
Qed.

Lemma slice_words (ws : list string) lo hi :
  Forall is_word ws → Forall is_word (Py.slice ws lo hi).
Proof. intros. unfold Py.slice. by apply Forall_take, Forall_drop. Qed.

Lemma slice_short {A} (l : list A) lo hi :
  (length (Py.slice l lo hi) ≤ length l)%nat.
Proof. unfold Py.slice. rewrite length_take, length_drop. lia. Qed.

(** X15.  Every chunk holds between 10 and [chunk_size] words, and splitting
    its text gives back the window of the page it was joined from. *)
Theorem chunk_holds_its_window self text_pages chunks :
  (0 ≤ chunk_size self)%Z →
  chunk_text self text_pages = Ok chunks →
  Forall (λ c, ∃ page i,
            page ∈ text_pages
            ∧ page_number c = Some page.2
            ∧ Py.split (content c)
              = Py.slice (Py.split page.1) i (i + chunk_size self)
            ∧ (10 ≤ length (Py.split (content c)))%nat
            ∧ (Z.of_nat (length (Py.split (content c))) ≤ chunk_size self)%Z)
         chunks.
Proof.
  intros Hsize Hchunks. apply Forall_forall. intros c Hc.
  destruct (chunk_origin _ _ _ _ Hchunks Hc)
    as (page & i & Hpage & Hi & Hpn & Hcontent & Hlong).
  exists page, i. rewrite Hcontent, split_join.
  - split_and!; [done..|]. rewrite length_slice by lia. lia.
  - apply slice_words. eapply Forall_impl; [apply (split_words (λ _, True))|].
    + by clear; induction (page.1).
    + by intros w [? _].
Qed.

Lemma chunk_text_zero_step self page pages :
  (chunk_size self - chunk_overlap self = 0)%Z →
  chunk_text self (page :: pages)
  = Raise "Failed to chunk text: range() arg 3 must not be zero".
Proof.
  intros Hstep.
  assert (chunk_page self ([], 0%Z) page
          = Raise "range() arg 3 must not be zero") as Hpage.
  { unfold chunk_page, Py.range. by rewrite Hstep. }
  unfold chunk_text. cbn [for_each]. by rewrite Hpage.
Qed.

(** X16.  A downloaded document whose pages all have fewer than 10 words
    is refused.  [process_pdf] raises for want of text when every page is
    blank; otherwise it raises for want of chunks when the chunk size
    differs from the overlap, and with the [ValueError] of [range] when
    they are equal. *)
Theorem short_document_is_refused self url w w1 pdf raw_pages :
  download_pdf url w = (Ok pdf, w1) →
  page_texts pdf = Ok raw_pages →
  Forall (λ raw, length (Py.split (_clean_text raw)) < 10)%nat raw_pages →
  ∃ text_pages,
    extract_text_from_pdf pdf = Ok text_pages
    ∧ process_pdf self url w
      = (Raise match text_pages with
               | [] => "No text could be extracted from the PDF"
               | _ =>
                   if (chunk_size self - chunk_overlap self =? 0)%Z
                   then "Failed to chunk text: range() arg 3 must not be zero"
                   else "No valid chunks could be created from the PDF"
               end, w1).
Proof.
  intros Hdl Hpages Hshort.
  unfold process_pdf, extract_text_from_pdf. rewrite Hdl.
  cbv beta iota. rewrite !result_bind_Ok, Hpages, result_bind_Ok.
  cbn [reraise]. rewrite result_bind_Ok. eexists. split; [done|].
  destruct (fold_left extract_page (enumerate raw_pages) [])
    as [|tp tps] eqn:Hex; [done|].
  destruct (Z.eqb_spec (chunk_size self - chunk_overlap self) 0)
    as [Hzero|Hstep].
  { by rewrite chunk_text_zero_step. }
  destruct (chunk_text_total self (tp :: tps) Hstep) as [chunks Hchunks].
  rewrite Hchunks, result_bind_Ok. destruct chunks as [|c chunks]; [done|].
  exfalso.
  destruct (chunk_origin _ _ _ c Hchunks)
    as (page & i & Hpage & _ & _ & _ & Hlong); [by left|].
  rewrite <-Hex in Hpage. unfold enumerate in Hpage.
  apply extract_pages_spec in Hpage as [Hpage|(idx & raw & Hraw & ->)].
  { by apply elem_of_nil in Hpage. }
  apply list_elem_of_lookup_2 in Hraw.
  apply (proj1 (Forall_forall _ _) Hshort) in Hraw.
  pose proof (slice_short (Py.split (_clean_text raw)) i (i + chunk_size self)).
  cbn [fst] in Hlong. lia.
Qed.
End Chunk_words.

Section Clean_text.
Import PDFProcessor.

Lemma replace_char_none old new s :
  chars_all (λ a, a ≠ old) s → Py.replace_char old new s = s.
Proof.
  induction s as [|a s IH]; [done|]. intros [Ha Hs]. simpl.
  rewrite IH by done. by destruct (Ascii.eqb_spec a old).
Qed.

Lemma chars_all_join P ws :
  P " "%char → Forall (chars_all P) ws → chars_all P (Py.join " " ws).
Proof.
  intros Hspace. induction 1 as [|w ws Hw Hws IH]; [done|].
  cbn [Py.join]. destruct ws; [done|].
  rewrite !chars_all_app. split_and!; [done| |done]. by split.
Qed.

(** X17.  Cleaning a text without NUL character joins its words by single
    spaces: the chunker sees the words of the page as extracted, and a
    page is dropped as blank exactly when it has no word. *)
Theorem clean_text_keeps_the_words text :
  chars_all (λ a, a ≠ "000"%char) text →
  _clean_text text = Py.join " " (Py.split text)
  ∧ Py.split (_clean_text text) = Py.split text
  ∧ (Py.strip (_clean_text text) = EmptyString ↔ Py.split text = []).
Proof.
  intros Hnul.
  pose proof (split_words _ _ Hnul) as Hwords.
  assert (Forall is_word (Py.split text)) as Hws.
  { eapply Forall_impl; [exact Hwords|]. by intros w [? _]. }
  assert (_clean_text text = Py.join " " (Py.split text)) as Hclean.
  { unfold _clean_text. rewrite replace_char_none; [by apply strip_join|].
    apply chars_all_join; [done|].
    eapply Forall_impl; [exact Hwords|]. by intros w [_ ?]. }
  rewrite Hclean. split_and!; [done|by apply split_join|].
  rewrite strip_join by done. split.
  - destruct Hws as [|w ws Hw _]; [done|].
    intros Hempty. by apply join_not_empty in Hempty.
  - by intros ->.
Qed.
End Clean_text.

Section Page_order.
Context {world : World}.
Import PDFProcessor.

Lemma extract_pages_sorted (doc : list string) (k : nat) acc :
  StronglySorted Z.lt (map snd acc) →
  Forall (λ tp, tp.2 ≤ Z.of_nat k)%Z acc →
  StronglySorted Z.lt
    (map snd (fold_left extract_page
                (zip (map Z.of_nat (seq k (length doc))) doc) acc)).
Proof.
  revert k acc. induction doc as [|raw doc IH]; intros k acc Hacc Hle; [done|].
  cbn [length seq map zip zip_with fold_left]. apply IH.
  - unfold extract_page. cbn [fst snd].
    destruct (Py.strip (_clean_text raw)); [done|].
    rewrite map_app. apply StronglySorted_app_2; [|done|repeat constructor].
    intros m n Hm Hn. cbn in Hn. apply list_elem_of_singleton in Hn as ->.
    apply list_elem_of_fmap in Hm as (tp & -> & Htp).
    apply (proj1 (Forall_forall _ _) Hle) in Htp. lia.
  - unfold extract_page. cbn [fst snd].
    destruct (Py.strip (_clean_text raw)).
    + eapply Forall_impl; [done|]. simpl. lia.
    + apply Forall_app. split.
      * eapply Forall_impl; [done|]. simpl. lia.
      * repeat constructor. simpl. lia.
Qed.

Lemma chunks_follow_pages self (text_pages : list (string * Z)) chunks :
  StronglySorted Z.lt (map snd text_pages) →
  (λ c, (content c, page_number c)) <$> chunks
  = concat ((λ page, chunk_of_window page <$> windows_of_page self page)
              <$> text_pages) →
  StronglySorted page_le chunks
  ∧ Forall (λ c, ∃ page, page ∈ text_pages ∧ page_number c = Some page.2)
           chunks.
Proof.
  revert chunks. induction text_pages as [|page pages IH]; intros chunks Hpages.
  { cbn. intros ->%fmap_nil_inv. split; constructor. }
  rewrite fmap_cons. cbn [concat]. intros Heq. revert Heq Hpages.
  intros (chunks1 & chunks2 & H1 & H2 & ->)%fmap_app_inv Hpages.
  symmetry in H1, H2.
  cbn [map] in Hpages. apply StronglySorted_cons in Hpages as [Hpage Hpages].
  destruct (IH chunks2 Hpages H2) as [Hsorted2 Hall2].
  assert (Forall (λ c, page_number c = Some page.2) chunks1) as Hall1.
  { apply Forall_forall. intros c Hc.
    apply (list_elem_of_fmap_2 (λ c, (content c, page_number c))) in Hc.
    rewrite H1 in Hc. apply list_elem_of_fmap in Hc as (win & Hc & _).
    by injection Hc. }
  split.
  - apply StronglySorted_app_2; [|clear -Hall1|done].
    + intros a b Ha Hb.
      apply (proj1 (Forall_forall _ _) Hall1) in Ha.
      apply (proj1 (Forall_forall _ _) Hall2) in Hb as (page' & Hpage' & Hb).
      exists page.2, page'.2. split_and!; [done..|].
      apply (list_elem_of_fmap_2 snd) in Hpage'.
      apply (proj1 (Forall_forall _ _) Hpage) in Hpage'. lia.
    + induction Hall1 as [|c cs Hc Hcs IHcs]; constructor; [done|].
      eapply Forall_impl; [done|]. simpl. intros c' Hc'.
      exists page.2, page.2. split_and!; [done..|lia].
  - apply Forall_app. split.
    + eapply Forall_impl; [done|]. simpl. intros c Hc.
      exists page. split; [by left|done].
    + eapply Forall_impl; [done|]. simpl. intros c (p & ? & ?).
      exists p. split; [by right|done].
Qed.

(** X18.  The chunks that [process_pdf] returns are in page order: along the
    list, the page numbers never decrease. *)
Theorem chunks_are_in_page_order self url w chunks w' :
  process_pdf self url w = (Ok chunks, w') →
  StronglySorted page_le chunks.
Proof.
  unfold process_pdf.
  destruct (download_pdf url w) as [[pdf|] w1]; [|done].
  rewrite result_bind_Ok. unfold extract_text_from_pdf.
  destruct (page_texts pdf) as [pages|]; [|done].
  rewrite result_bind_Ok. cbn [reraise]. rewrite result_bind_Ok.
  pose proof (extract_pages_sorted pages 0 []) as Hsorted.
  unfold enumerate.
  destruct (fold_left extract_page _ []) as [|tp tps]; [done|].
  destruct (chunk_text self (tp :: tps)) as [cs|] eqn:Hchunks; [|done].
  rewrite result_bind_Ok. destruct cs as [|c cs]; [done|].
  intros [= <- <-].
  apply chunk_text_windows in Hchunks.
  apply (chunks_follow_pages self (tp :: tps)); [|done].
  apply Hsorted; constructor.
Qed.
End Page_order.

Section Coverage.
Context {world : World}.
Import PDFProcessor.

Lemma range_elem stop step q :
  (0 < step)%Z → (0 ≤ q)%Z → (q * step < stop)%Z →
  ∃ l, Py.range 0 stop step = Some l ∧ (q * step)%Z ∈ l.
Proof.
  intros Hstep Hq Hstop. unfold Py.range.
  destruct (Z.eqb_spec step 0) as [|_]; [lia|].
  destruct (Z.ltb_spec 0 step) as [_|]; [|lia].
  eexists. split; [done|].
  apply list_elem_of_fmap. exists (Z.to_nat q). split; [lia|].
  apply elem_of_seq.
  assert (q + 1 ≤ (stop - 0 + step - 1) / step)%Z; [|lia].
  apply Z.div_le_lower_bound; lia.
Qed.

Lemma slice_lookup {A} (l : list A) lo hi (j : nat) :
  (0 ≤ lo ≤ Z.of_nat j)%Z → (Z.of_nat j < hi)%Z → (j < length l)%nat →
  Py.slice l lo hi !! (j - Z.to_nat lo)%nat = l !! j.
Proof.
  intros Hlo Hhi Hj. unfold Py.slice, Py.clamp.
  destruct (Z.ltb_spec lo 0), (Z.ltb_spec hi 0); try lia.
  rewrite lookup_take_lt, lookup_drop by lia. f_equal. lia.
Qed.

Lemma split_is_words s : Forall is_word (Py.split s).
Proof.
  eapply Forall_impl; [apply (split_words (λ _, True))|].
  - by induction s.
  - by intros w [? _].
Qed.

(** X19.  With an overlap of at least 9 words, smaller than the chunk size,
    chunking loses no word of a page that has at least 10 words: the word
    at any position of the page is in a chunk of that page, at its
    position in the window. *)
Theorem no_word_of_a_page_is_lost self text_pages chunks page (j : nat) word :
  (9 ≤ chunk_overlap self)%Z →
  (chunk_overlap self < chunk_size self)%Z →
  chunk_text self text_pages = Ok chunks →
  page ∈ text_pages →
  (10 ≤ length (Py.split page.1))%nat →
  Py.split page.1 !! j = Some word →
  ∃ c (i : nat),
    c ∈ chunks
    ∧ page_number c = Some page.2
    ∧ (i ≤ j)%nat
    ∧ Py.split (content c)
      = Py.slice (Py.split page.1) (Z.of_nat i) (Z.of_nat i + chunk_size self)
    ∧ Py.split (content c) !! (j - i)%nat = Some word.
Proof.
  intros Hoverlap Hsize Hchunks Hpage Hlong Hword.
  set (words := Py.split page.1) in *.
  set (step := (chunk_size self - chunk_overlap self)%Z).
  assert (0 < step)%Z as Hstep by (unfold step; lia).
  pose proof (lookup_lt_Some _ _ _ Hword) as Hj.
  set (m := Z.min (Z.of_nat j) (Z.of_nat (length words) - 10)).
  set (q := (m / step)%Z).
  assert (0 ≤ q)%Z as Hq by (apply Z.div_pos; unfold m; lia).
  pose proof (Z.mul_div_le m step Hstep) as Hlow.
  pose proof (Z.mul_succ_div_gt m step Hstep) as Hhigh.
  fold q in Hlow, Hhigh.
  set (i := (q * step)%Z).
  assert (0 ≤ i)%Z as Hi0 by (unfold i; lia).
  assert (i ≤ m ∧ m < i + step)%Z as [Him Hmi] by (unfold i; lia).
  destruct (range_elem (Z.of_nat (length words)) step q)
    as (starts & Hrange & Hi); [lia..|unfold m in Him; lia|].
  fold i in Hi.
  set (window := Py.slice words i (i + chunk_size self)).
  assert (10 ≤ length window)%nat as Hwindow.
  { unfold window. rewrite length_slice by lia. unfold m in Him. lia. }
  assert (window ∈ windows_of_page self page) as Hin.
  { unfold windows_of_page. fold words step. rewrite Hrange. cbn [default].
    apply (list_elem_of_fmap_2 (λ i, Py.slice words i (i + chunk_size self))).
    by apply list_elem_of_filter. }
  apply chunk_text_windows in Hchunks.
  assert (chunk_of_window page window
          ∈ (λ c, (content c, page_number c)) <$> chunks) as Hc.
  { rewrite Hchunks. apply elem_of_concat.
    exists (chunk_of_window page <$> windows_of_page self page). split.
    - by apply (list_elem_of_fmap_2
                  (λ page, chunk_of_window page <$> windows_of_page self page)).
    - by apply list_elem_of_fmap_2. }
  apply list_elem_of_fmap in Hc as (c & Hc & Hcin).
  injection Hc as Hcontent Hpn.
  assert (Py.split (content c) = window) as Hsplit.
  { rewrite <-Hcontent. apply split_join, slice_words, split_is_words. }
  exists c, (Z.to_nat i). rewrite Hsplit, Z2Nat.id by done.
  split_and!; [done|done|unfold m in Him; lia|done|].
  unfold window. rewrite slice_lookup; [done| | |done]; unfold m in *; lia.
Qed.
End Coverage.

(** ** The further properties on concrete inputs *)

Section Concrete_further.
Local Existing Instance Scripted.World_instance.
Local Existing Instance Scripted.Numpy_instance.
Local Existing Instance Scripted_http.Http_instance.

Lemma validate_questions_idempotent_witness :
  Schemas.validate_questions ["What is covered?"; "Why"]
  = Ok ["What is covered?"; "Why"].
Proof.
  apply (validate_questions_idempotent ["  What is covered? "; "Why "]).
  vm_compute. reflexivity.
Defined.

(** The validator on lists that it refuses. *)
Example validate_questions_refusals :
  Schemas.validate_questions [] = Raise "At least one question is required"
  ∧ Schemas.validate_questions (replicate 11 "Why?")
    = Raise "Maximum 10 questions allowed"
  ∧ Schemas.validate_questions ["Why?"; "   "]
    = Raise "Question 2 cannot be empty"
  ∧ Schemas.validate_questions [" a b"; " ab "]
    = Raise "Question 2 must be at least 3 characters long".
Proof. vm_compute. done. Qed.

Lemma download_within_limit_witness :
  ∃ response,
    Transport.requests_get "https://example.org/small.pdf" Samples.net
      = (inr response, Samples.net)
    ∧ Transport.status_error response = None
    ∧ Transport.stream_error response = None
    ∧ [Byte.x25; Byte.x50; Byte.x44; Byte.x46; Byte.x2d]
      = concat (Transport.body response)
    ∧ (Z.of_nat (length [Byte.x25; Byte.x50; Byte.x44; Byte.x46; Byte.x2d])
       ≤ 5)%Z.
Proof.
  apply (download_within_limit 5 "https://example.org/small.pdf"
           Samples.net).
  - lia.
  - vm_compute. reflexivity.
Defined.

Lemma download_decided_by_size_witness :
  Transport.download_pdf 5 "https://example.org/undeclared.pdf" Samples.net
    = (Ok (concat (Transport.body Samples.undeclared_response)), Samples.net)
  ∧ ∃ n, (4 < n)%Z
         ∧ Transport.download_pdf 4 "https://example.org/undeclared.pdf"
                                  Samples.net
           = (Raise ("Error downloading PDF: File too large: "
                     +:+ pretty n +:+ " bytes"), Samples.net).
Proof.
  split.
  - apply (download_decided_by_size 5
             "https://example.org/undeclared.pdf" Samples.net
             Samples.undeclared_response Samples.net);
      [reflexivity..|simpl; lia].
  - apply (download_decided_by_size 4
             "https://example.org/undeclared.pdf" Samples.net
             Samples.undeclared_response Samples.net);
      [reflexivity..|simpl; lia|lia].
Defined.

Lemma download_refuses_declared_oversize_witness :
  Transport.download_pdf Transport.MAX_FILE_SIZE
    "https://example.org/declared.pdf" Samples.net
  = (Raise "Error downloading PDF: File too large: 52428801 bytes",
     Samples.net).
Proof.
  apply (download_refuses_declared_oversize Transport.MAX_FILE_SIZE
           "https://example.org/declared.pdf" Samples.net
           Samples.declared_response Samples.net "52428801" 52428801);
    [reflexivity|reflexivity|reflexivity|discriminate|reflexivity|].
  vm_compute. reflexivity.
Defined.

Lemma search_without_query_embedding_witness :
  (App.search_similar_chunks Samples.semantic_index "dog cat" 2
                             Samples.silent_world).1
  = HealthLink.search_similar_chunks Demo.keyword_index "dog cat" 2.
Proof.
  apply (search_without_query_embedding_is_keyword Samples.semantic_index
           "dog cat" 2 Samples.silent_world).
  - discriminate.
  - reflexivity.
Defined.

Lemma service_without_client_witness :
  let built :=
    App.create_vector_index Samples.offline_index Demo.animal_chunks
                            Samples.embedding_world in
  built.2 = Samples.embedding_world
  ∧ App.embeddings built.1.2
    = replicate (length Demo.animal_chunks) App.zero_vector
  ∧ App.search_similar_chunks built.1.2 "dog cat" 2 Samples.embedding_world
    = (HealthLink.search_similar_chunks Demo.keyword_index "dog cat" 2,
       Samples.embedding_world).
Proof.
  apply (service_without_client_is_keyword_only Samples.offline_index
           Demo.animal_chunks "dog cat" 2 Samples.embedding_world).
  - reflexivity.
  - discriminate.
Defined.

Lemma search_on_dimension_mismatch_witness :
  (App.search_similar_chunks Samples.ragged_index "dog cat" 2
                             Samples.embedding_world).1
  = HealthLink.search_similar_chunks Demo.keyword_index "dog cat" 2.
Proof.
  apply (search_on_dimension_mismatch_is_keyword Samples.ragged_index
           "dog cat" 2 Samples.embedding_world [1; 0; 0]%float).
  - discriminate.
  - apply list_elem_of_lookup_2 with 2%nat. reflexivity.
  - vm_compute. discriminate.
Defined.

Lemma search_returns_distinct_chunks_witness :
  ∃ result,
    (App.search_similar_chunks Samples.semantic_index "dog cat" 2
                               Samples.embedding_world).1 = Ok result
    ∧ length result = (Z.to_nat 2 `min` length Demo.animal_chunks)%nat
    ∧ NoDup (map chunk_id result)
    ∧ result ⊆ Demo.animal_chunks.
Proof.
  apply (search_returns_distinct_chunks Samples.semantic_index "dog cat" 2
           Samples.embedding_world).
  - discriminate.
  - apply (bool_decide_unpack _). reflexivity.
  - lia.
Defined.

(** The semantic branch on that index: the chunks nearest to [3; 4]. *)
Example semantic_search_on_sample :
  (App.search_similar_chunks Samples.semantic_index "dog cat" 2
                             Samples.embedding_world).1
  = Ok [mk_chunk "The Dog and the cat" 2 2;
        mk_chunk "a dog barked loudly" 1 1].
Proof. vm_compute. reflexivity. Qed.

Lemma context_is_never_the_sentinel_witness :
  ∃ similar_chunks,
    (App.search_similar_chunks Demo.fallback_index "zebra" 1 Demo.world).1
      = Ok similar_chunks
    ∧ similar_chunks ≠ []
    ∧ (App.get_context_for_question Demo.fallback_index "zebra" 1
                                    Demo.world).1
      = Ok (App.assemble_context similar_chunks)
    ∧ App.assemble_context similar_chunks
      ≠ "No relevant context found in the document.".
Proof.
  apply (context_is_never_the_sentinel Demo.fallback_index "zebra" 1
           Demo.world).
  - discriminate.
  - lia.
Defined.

Lemma chunk_text_is_the_kept_windows_witness :
  let kept :=
    concat ((λ page, chunk_of_window page
                     <$> windows_of_page Samples.narrow page)
              <$> Samples.alphabet_pages) in
  Samples.alphabet_chunks
  = zip_with numbered (seqZ 0 (Z.of_nat (length kept))) kept.
Proof.
  apply (chunk_text_is_the_kept_windows Samples.narrow
           Samples.alphabet_pages).
  vm_compute. reflexivity.
Defined.

Lemma chunk_holds_its_window_witness :
  Forall (λ c, ∃ page i,
            page ∈ Samples.alphabet_pages
            ∧ page_number c = Some page.2
            ∧ Py.split (content c)
              = Py.slice (Py.split page.1) i
                         (i + PDFProcessor.chunk_size Samples.narrow)
            ∧ (10 ≤ length (Py.split (content c)))%nat
            ∧ (Z.of_nat (length (Py.split (content c)))
               ≤ PDFProcessor.chunk_size Samples.narrow)%Z)
         Samples.alphabet_chunks.
Proof.
  apply (chunk_holds_its_window Samples.narrow Samples.alphabet_pages).
  - simpl. lia.
  - vm_compute. reflexivity.
Defined.

Lemma short_document_is_refused_witness :
  (∃ text_pages,
     PDFProcessor.extract_text_from_pdf
       (["a b c"; "  "; "d e"] : @pdf_bytes Scripted.World_instance)
       = Ok text_pages
     ∧ PDFProcessor.process_pdf (PDFProcessor.new settings)
         "https://example.org/short.pdf" Samples.silent_world
       = (Raise match text_pages with
                | [] => "No text could be extracted from the PDF"
                | _ =>
                    if (PDFProcessor.chunk_size (PDFProcessor.new settings)
                        - PDFProcessor.chunk_overlap (PDFProcessor.new settings)
                        =? 0)%Z
                    then "Failed to chunk text: range() arg 3 must not be zero"
                    else "No valid chunks could be created from the PDF"
                end, Samples.silent_world))
  ∧ PDFProcessor.process_pdf Samples.stalled
      "https://example.org/short.pdf" Samples.silent_world
    = (Raise "Failed to chunk text: range() arg 3 must not be zero",
       Samples.silent_world).
Proof.
  split.
  - apply (short_document_is_refused (PDFProcessor.new settings)
             "https://example.org/short.pdf" Samples.silent_world
             Samples.silent_world ["a b c"; "  "; "d e"]
             ["a b c"; "  "; "d e"]).
    + reflexivity.
    + reflexivity.
    + repeat constructor; vm_compute; lia.
  - destruct (short_document_is_refused Samples.stalled
                "https://example.org/short.pdf" Samples.silent_world
                Samples.silent_world ["a b c"; "  "; "d e"]
                ["a b c"; "  "; "d e"])
      as (text_pages & Hpages & Hrefused).
    + reflexivity.
    + reflexivity.
    + repeat constructor; vm_compute; lia.
    + injection Hpages as <-. exact Hrefused.
Defined.

(** The three refusals of a short document. *)
Example short_document_refusals :
  (PDFProcessor.process_pdf (PDFProcessor.new settings)
     "https://example.org/short.pdf" Samples.silent_world).1
    = Raise "No valid chunks could be created from the PDF"
  ∧ (PDFProcessor.process_pdf Samples.stalled
       "https://example.org/short.pdf" Samples.silent_world).1
    = Raise "Failed to chunk text: range() arg 3 must not be zero"
  ∧ (PDFProcessor.process_pdf (PDFProcessor.new settings)
       "https://example.org/blank.pdf" Samples.silent_world).1
    = Raise "No text could be extracted from the PDF".
Proof. vm_compute. done. Qed.

Lemma clean_text_keeps_the_words_witness :
  PDFProcessor._clean_text "  two   words "
    = Py.join " " (Py.split "  two   words ")
  ∧ Py.split (PDFProcessor._clean_text "  two   words ")
    = Py.split "  two   words "
  ∧ (Py.strip (PDFProcessor._clean_text "  two   words ") = EmptyString
     ↔ Py.split "  two   words " = []).
Proof.
  apply (clean_text_keeps_the_words "  two   words ").
  simpl. repeat split; discriminate.
Defined.

(** A NUL character is turned into a space after the runs of white space
    are collapsed, so two of them leave two spaces. *)
Example clean_text_with_nul :
  PDFProcessor._clean_text (String "a" (String "000" (String "000" "b")))
  = "a  b".
Proof. vm_compute. reflexivity. Qed.

Lemma chunks_are_in_page_order_witness :
  StronglySorted page_le Demo.short_chunks.
Proof.
  apply (chunks_are_in_page_order (PDFProcessor.new settings)
           "https://example.org/doc.pdf" Demo.world Demo.short_chunks
           Demo.world).
  vm_compute. reflexivity.
Defined.

Lemma no_word_of_a_page_is_lost_witness :
  ∃ c (i : nat),
    c ∈ Samples.alphabet_chunks
    ∧ page_number c = Some 1%Z
    ∧ (i ≤ 13)%nat
    ∧ Py.split (content c)
      = Py.slice (Py.split "a b c d e f g h i j k l m n") (Z.of_nat i)
                 (Z.of_nat i + 12)
    ∧ Py.split (content c) !! (13 - i)%nat = Some "n".
Proof.
  apply (no_word_of_a_page_is_lost Samples.narrow Samples.alphabet_pages
           Samples.alphabet_chunks ("a b c d e f g h i j k l m n", 1%Z)
           13 "n").
  - simpl. lia.
  - simpl. lia.
  - vm_compute. reflexivity.
  - by left.
  - vm_compute. lia.
  - reflexivity.
Defined.
End Concrete_further.
